(** * ZenMonitor: the monitoring engine, its configuration defaults and its
    notifier, embedded from the Go sources

    - [config]   : internal/config/loader.go
    - [notifier] : internal/notifier/notifier.go
    - [monitor]  : the engine (package monitor)

    Go's int and time.Duration are only compared, printed and handed to the
    library here, never added or multiplied by the program, so they are
    carried as [Z].  Everything the program asks of the outside (the clock,
    the HTTP client, the dialer, the store) is an explicit input. *)

From Stdlib Require Import ZArith String Ascii List DecimalString Lia.
From stdpp Require Import gmap strings.

Open Scope Z_scope.
Open Scope string_scope.

(** ** The part of the Go library the program uses *)

Module go.

(** time.Duration counts nanoseconds. *)
Definition Duration := Z.
Definition Time := Z.

Definition Second : Duration := 1000000000.

(** A non-nil [error].  The program makes its own with fmt.Errorf; the
    others are handed to it by net, net/http, os or yaml. *)
Inductive error :=
| errorString (s : string)
| libError (s : string).

(** The method [Error() string]. *)
Definition Error (e : error) : string :=
  match e with
  | errorString s => s
  | libError s => s
  end.

(** The verb [%d] of fmt. *)
Definition fmt_d (z : Z) : string := NilZero.string_of_int (Z.to_int z).

(** [*http.Response], as far as the program reads it. *)
Record Response := { StatusCode : Z }.

(** time.NewTicker: "The duration d must be greater than zero; if not,
    NewTicker will panic."  [None] is that panic. *)
Definition NewTicker (d : Duration) : option Duration :=
  if (d <=? 0)%Z then None else Some d.

(** What the outside answers during one check cycle: the clock at the
    places the program reads it, the HTTP client (timeout, method, URL),
    the dialer (network, address, timeout) and http.Post (URL, content
    type, the JSON object sent). *)
Record World := {
  time_Now : Time;
  time_Since : Time -> Duration;
  now_RFC1123 : string;
  client_Do : Duration -> string -> string -> error + Response;
  net_DialTimeout : string -> string -> Duration -> option error;
  http_Post : string -> string -> gmap string string -> error + Response
}.

(** The method Get of http.Client: "Get issues a GET to the specified URL". *)
Definition client_Get (w : World) (timeout : Duration) (url : string)
  : error + Response :=
  client_Do w timeout "GET" url.

(** strings.HasPrefix and strings.Contains. *)
Fixpoint HasPrefix (s prefix : string) : bool :=
  match prefix, s with
  | EmptyString, _ => true
  | String p prefix', String c s' => Ascii.eqb p c && HasPrefix s' prefix'
  | String _ _, EmptyString => false
  end.

Fixpoint Contains (s substr : string) : bool :=
  HasPrefix s substr ||
  match s with
  | EmptyString => false
  | String _ s' => Contains s' substr
  end.

End go.

(** ** internal/config/loader.go *)

Module config.

Record GlobalConfig := {
  CheckInterval : string;
  HistoryDays : Z
}.

(** [Type_n] is the field [Type] of NotificationConfig. *)
Record NotificationConfig := {
  Type_n : string;
  Token : string;
  ChatID : string;
  WebhookURL : string
}.

(** [Type_] is the field [Type]. *)
Record MonitorConfig := {
  Name : string;
  Type_ : string;
  URL : string;
  Host : string;
  Port : Z;
  Method : string;
  ExpectStatus : Z;
  Interval : string
}.

Record Config := {
  Global : GlobalConfig;
  Notifications : list NotificationConfig;
  Monitors : list MonitorConfig
}.

(** The body of the loop over [cfg.Monitors] in LoadConfig. *)
Definition inferType (m : MonitorConfig) : string :=
  if Type_ m =? "" then
    if negb (URL m =? "") then "http"
    else if negb (Host m =? "") && negb (Port m =? 0)%Z then "tcp"
    else if negb (Host m =? "") then "icmp"
    else Type_ m
  else Type_ m.

Definition monitorDefaults (m : MonitorConfig) : MonitorConfig :=
  {| Name := Name m;
     Type_ := inferType m;
     URL := URL m;
     Host := Host m;
     Port := Port m;
     Method := if Method m =? "" then "GET" else Method m;
     ExpectStatus := if (ExpectStatus m =? 0)%Z then 200 else ExpectStatus m;
     Interval := Interval m |}.

Definition globalDefaults (g : GlobalConfig) : GlobalConfig :=
  {| CheckInterval := if CheckInterval g =? "" then "60s" else CheckInterval g;
     HistoryDays := if (HistoryDays g =? 0)%Z then 90 else HistoryDays g |}.

(** LoadConfig after a successful yaml.Unmarshal. *)
Definition validate (cfg : Config) : Config :=
  {| Global := globalDefaults (Global cfg);
     Notifications := Notifications cfg;
     Monitors := map monitorDefaults (Monitors cfg) |}.

(** LoadConfig; the file system and the YAML decoder are inputs. *)
Definition LoadConfig
    (os_ReadFile : string -> go.error + string)
    (yaml_Unmarshal : string -> go.error + Config)
    (path : string) : go.error + Config :=
  match os_ReadFile path with
  | inl err =>
      inl (go.errorString ("failed to read config file: " ++ go.Error err))
  | inr data =>
      match yaml_Unmarshal data with
      | inl err =>
          inl (go.errorString ("failed to parse yaml: " ++ go.Error err))
      | inr cfg => inr (validate cfg)
      end
  end.

Section ParseDuration.

(** time.ParseDuration of the Go library: a duration or an error. *)
Variable time_ParseDuration : string -> go.error + go.Duration.

Definition ParseDuration (d : string) : go.Duration :=
  match time_ParseDuration d with
  | inl _ => 60 * go.Second
  | inr dur => dur
  end.

End ParseDuration.

End config.

(** ** internal/notifier/notifier.go *)

Module notifier.

(** The interface Sender and the two types that implement it. *)
Inductive Sender :=
| TelegramSender (Token ChatID : string)
| SlackSender (WebhookURL : string).

Record Service := { Senders : list Sender }.

Definition NewService (cfg : list config.NotificationConfig) : Service :=
  {| Senders :=
       flat_map
         (fun n =>
            if config.Type_n n =? "telegram" then
              if negb (config.Token n =? "") && negb (config.ChatID n =? "")
              then [TelegramSender (config.Token n) (config.ChatID n)]
              else []
            else if config.Type_n n =? "slack" then
              if negb (config.WebhookURL n =? "")
              then [SlackSender (config.WebhookURL n)]
              else []
            else [])
         cfg |}.

(** postJSON; json.Marshal of a map[string]string does not fail. *)
Definition postJSON (w : go.World) (url : string) (v : gmap string string)
  : option go.error :=
  match go.http_Post w url "application/json" v with
  | inl err => Some err
  | inr resp =>
      if (300 <=? go.StatusCode resp)%Z
      then Some (go.errorString
                   ("api request failed with status: "
                    ++ go.fmt_d (go.StatusCode resp)))
      else None
  end.

Definition Send (w : go.World) (s : Sender) (message : string)
  : option go.error :=
  match s with
  | TelegramSender token chatID =>
      postJSON w ("https://api.telegram.org/bot" ++ token ++ "/sendMessage")
        (<["chat_id" := chatID]>
           (<["text" := message]>
              (<["parse_mode" := "Markdown"]> ∅)))
  | SlackSender webhookURL =>
      postJSON w webhookURL (<["text" := message]> ∅)
  end.

(** A goroutine started by Notify: [go func(snd Sender) { _ = snd.Send(msg) }(sender)]. *)
Inductive Goroutine :=
| GoSend (snd : Sender) (msg : string).

(** What the goroutine does when it is scheduled, in a world of its own:
    the error of Send is dropped, nothing is returned to anyone. *)
Definition runGoroutine (w : go.World) (g : Goroutine) : unit :=
  match g with
  | GoSend snd msg => let _ := Send w snd msg in tt
  end.

Definition message (w : go.World) (monitorName : string) (isUp : bool)
  : string :=
  let status := if isUp then "UP" else "DOWN" in
  let emoji := if isUp then "🟢" else "🔴" in
  emoji ++ " Monitor *" ++ monitorName ++ "* is " ++ status ++ " at "
  ++ go.now_RFC1123 w.

(** Notify runs on the caller's goroutine and starts one goroutine per
    sender; the result is the list of goroutines started, in order. *)
Definition Notify (s : Service) (w : go.World)
    (monitorName : string) (isUp wasUp : bool) : list Goroutine :=
  map (fun sender => GoSend sender (message w monitorName isUp)) (Senders s).

End notifier.

(** ** package monitor: the engine *)

Module monitor.

Record CheckResult := {
  MonitorName : string;
  Timestamp : go.Time;
  Status : bool;
  Latency : go.Duration;
  Error : string
}.

(** The interface Store: LogCheck answers nil or an error. *)
Record Store := { LogCheck : CheckResult -> option go.error }.

(** The interface Notifier.  Notify returns nothing to the engine; what it
    leaves behind is the goroutines it started. *)
Record Notifier := {
  Notify : go.World -> string -> bool -> bool -> list notifier.Goroutine
}.

(** [Store_] and [Notifier_] are the fields [Store] and [Notifier];
    [None] is a nil interface.  [stopCh] is [true] once the channel is
    closed.  The mutex [mu] shows as the events [EvLock] and [EvUnlock]. *)
Record Engine := {
  Cfg : config.Config;
  Store_ : option Store;
  Notifier_ : option Notifier;
  lastState : gmap string bool;
  stopCh : bool
}.

Definition NewEngine (cfg : config.Config) (store : option Store)
    (notifier : option Notifier) : Engine :=
  {| Cfg := cfg;
     Store_ := store;
     Notifier_ := notifier;
     lastState := ∅;
     stopCh := false |}.

(** What a goroutine of the engine does to the outside, in order. *)
Inductive Event :=
| EvRequest (timeout : go.Duration) (method url : string)
| EvBodyClose
| EvDial (network address : string) (timeout : go.Duration)
| EvConnClose
| EvLogCheck (result : CheckResult)
| EvLock
| EvUnlock
| EvNotify (monitorName : string) (isUp oldState : bool)
| EvGo (g : notifier.Goroutine).

(** A computation that returns a value and leaves a trace. *)
Definition IO (A : Type) : Type := (A * list Event)%type.

Definition ret {A : Type} (a : A) : IO A := (a, []).

Definition bind {A B : Type} (c : IO A) (k : A -> IO B) : IO B :=
  let '(a, t1) := c in
  let '(b, t2) := k a in
  (b, (t1 ++ t2)%list).

Definition emit (ev : Event) : IO unit := (tt, [ev]).

Declare Scope io_scope.
Delimit Scope io_scope with io.
Notation "x <- c ;; k" := (bind c (fun x => k))
  (at level 100, c at next level, right associativity) : io_scope.
Notation "c ;; k" := (bind c (fun _ => k))
  (at level 100, right associativity) : io_scope.
Open Scope io_scope.

(** *** The probes *)

Definition checkHTTP (w : go.World) (m : config.MonitorConfig)
  : IO (bool * option go.error) :=
  emit (EvRequest (10 * go.Second) "GET" (config.URL m)) ;;
  match go.client_Get w (10 * go.Second) (config.URL m) with
  | inl err => ret (false, Some err)
  | inr resp =>
      let r :=
        if negb (go.StatusCode resp =? config.ExpectStatus m)%Z
        then (false,
              Some (go.errorString
                      ("status code " ++ go.fmt_d (go.StatusCode resp)
                       ++ ", expected " ++ go.fmt_d (config.ExpectStatus m))))
        else (true, None) in
      emit EvBodyClose ;;
      ret r
  end.

Definition checkTCP (w : go.World) (m : config.MonitorConfig)
  : IO (bool * option go.error) :=
  let target := config.Host m ++ ":" ++ go.fmt_d (config.Port m) in
  emit (EvDial "tcp" target (10 * go.Second)) ;;
  match go.net_DialTimeout w "tcp" target (10 * go.Second) with
  | Some err => ret (false, Some err)
  | None => emit EvConnClose ;; ret (true, None)
  end.

Definition checkICMP (m : config.MonitorConfig)
  : IO (bool * option go.error) :=
  ret (false,
       Some (go.errorString
               "ICMP not yet implemented (requires decision on root vs shell)")).

(** The switch on [m.Type] of performCheck. *)
Definition probe (w : go.World) (m : config.MonitorConfig)
  : IO (bool * option go.error) :=
  if (config.Type_ m =? "http") || (config.Type_ m =? "https")
  then checkHTTP w m
  else if config.Type_ m =? "tcp" then checkTCP w m
  else if config.Type_ m =? "icmp" then checkICMP m
  else if negb (config.URL m =? "") then checkHTTP w m
  else ret (false, Some (go.errorString "unknown monitor type")).

(** *** One check cycle *)

(** [wasUp, exists := e.lastState[name]]. *)
Definition lookupState (st : gmap string bool) (name : string)
  : bool * bool :=
  match st !! name with
  | Some b => (b, true)
  | None => (false, false)
  end.

Definition setLastState (e : Engine) (st : gmap string bool) : Engine :=
  {| Cfg := Cfg e;
     Store_ := Store_ e;
     Notifier_ := Notifier_ e;
     lastState := st;
     stopCh := stopCh e |}.

Definition mkResult (w : go.World) (m : config.MonitorConfig)
    (success : bool) (err : option go.error) : CheckResult :=
  let start := go.time_Now w in
  let latency := go.time_Since w start in
  let errMsg := match err with
                | Some e => go.Error e
                | None => ""
                end in
  {| MonitorName := config.Name m;
     Timestamp := start;
     Status := success;
     Latency := latency;
     Error := errMsg |}.

Definition persist (e : Engine) (result : CheckResult) : IO unit :=
  match Store_ e with
  | Some store =>
      emit (EvLogCheck result) ;;
      let _ := LogCheck store result in
      ret tt
  | None => ret tt
  end.

Definition alert (w : go.World) (e : Engine) (name : string)
    (success wasUp exists_ : bool) : IO unit :=
  if exists_ && negb (Bool.eqb wasUp success) then
    match Notifier_ e with
    | Some n =>
        emit (EvNotify name success wasUp) ;;
        (tt, map EvGo (Notify n w name success wasUp))
    | None => ret tt
    end
  else ret tt.

Definition performCheck (w : go.World) (e : Engine)
    (m : config.MonitorConfig) : IO Engine :=
  r <- probe w m ;;
  let '(success, err) := r in
  let result := mkResult w m success err in
  persist e result ;;
  emit EvLock ;;
  let '(wasUp, exists_) := lookupState (lastState e) (config.Name m) in
  let e' := setLastState e (<[config.Name m := success]> (lastState e)) in
  emit EvUnlock ;;
  alert w e (config.Name m) success wasUp exists_ ;;
  ret e'.

(** *** Start, Stop and the loop of runMonitor *)

(** Where a goroutine running runMonitor stands. *)
Inductive Pc :=
| Spawned     (* started by [go e.runMonitor(m)], nothing executed yet *)
| Checking    (* inside performCheck: a probe is in flight *)
| Waiting     (* at the select *)
| Returned    (* took [<-e.stopCh]; the deferred ticker.Stop() has run *)
| Panicked.   (* time.NewTicker panicked *)

(** [ticker] is the interval of the running ticker; [tick] says that its
    channel (of capacity one) holds a tick. *)
Record Loop := {
  target : config.MonitorConfig;
  pc : Pc;
  ticker : option go.Duration;
  tick : bool
}.

Definition at_ (l : Loop) (p : Pc) : Loop :=
  {| target := target l; pc := p; ticker := ticker l; tick := tick l |}.

Definition withTick (l : Loop) (b : bool) : Loop :=
  {| target := target l; pc := pc l; ticker := ticker l; tick := b |}.

Definition withTicker (l : Loop) (d : option go.Duration) : Loop :=
  {| target := target l; pc := pc l; ticker := d; tick := tick l |}.

(** What the goroutine does next.  At the select both cases may be ready;
    Go then takes either one. *)
Inductive Choice :=
| Begin                    (* compute the interval, create the ticker *)
| Finish (w : go.World)    (* the check in flight completes in world [w] *)
| TakeStop                 (* select: case <-e.stopCh *)
| TakeTick.                (* select: case <-ticker.C *)

Section runMonitor.

Variable time_ParseDuration : string -> go.error + go.Duration.

(** The interval runMonitor hands to time.NewTicker. *)
Definition interval (e : Engine) (m : config.MonitorConfig) : go.Duration :=
  let interval :=
    config.ParseDuration time_ParseDuration
      (config.CheckInterval (config.Global (Cfg e))) in
  if negb (config.Interval m =? "")
  then config.ParseDuration time_ParseDuration (config.Interval m)
  else interval.

(** One step of runMonitor; [None] when the step is not possible (the
    select case is not ready, or the goroutine is elsewhere). *)
Definition runMonitor (c : Choice) (e : Engine) (l : Loop)
  : option (Engine * Loop * list Event) :=
  match pc l, c with
  | Spawned, Begin =>
      match go.NewTicker (interval e (target l)) with
      | None => Some (e, at_ l Panicked, [])
      | Some d => Some (e, at_ (withTicker l (Some d)) Checking, [])
      end
  | Checking, Finish w =>
      let '(e', t) := performCheck w e (target l) in
      Some (e', at_ l Waiting, t)
  | Waiting, TakeStop =>
      if stopCh e
      then Some (e, at_ (withTicker l None) Returned, [])
      else None
  | Waiting, TakeTick =>
      if tick l
      then Some (e, at_ (withTick l false) Checking, [])
      else None
  | _, _ => None
  end.

(** The process: the engine, one goroutine per monitor, what was done so
    far, and whether a panic has brought the process down. *)
Record System := {
  engine : Engine;
  loops : list Loop;
  trace : list Event;
  crashed : bool
}.

(** Start: one goroutine per configured monitor. *)
Definition Start (e : Engine) : list Loop :=
  map (fun m => {| target := m; pc := Spawned; ticker := None; tick := false |})
      (config.Monitors (Cfg e)).

Definition started (e : Engine) : System :=
  {| engine := e; loops := Start e; trace := []; crashed := false |}.

(** Stop: [close(e.stopCh)]; closing a closed channel panics. *)
Definition Stop (s : System) : System :=
  if stopCh (engine s)
  then {| engine := engine s; loops := loops s; trace := trace s;
          crashed := true |}
  else {| engine := {| Cfg := Cfg (engine s);
                       Store_ := Store_ (engine s);
                       Notifier_ := Notifier_ (engine s);
                       lastState := lastState (engine s);
                       stopCh := true |};
          loops := loops s; trace := trace s; crashed := crashed s |}.

(** The ticker of a goroutine fires: the tick is kept if the channel is
    empty and dropped otherwise.  There is a ticker from NewTicker until
    runMonitor returns. *)
Definition fire (l : Loop) : option Loop :=
  match ticker l with
  | Some _ => Some (withTick l true)
  | None => None
  end.

Inductive Action :=
| CallStop
| Fire (i : nat)
| Go (i : nat) (c : Choice).

Definition step (a : Action) (s : System) : option System :=
  if crashed s then None else
  match a with
  | CallStop => Some (Stop s)
  | Fire i =>
      l ← loops s !! i;
      l' ← fire l;
      Some {| engine := engine s; loops := <[i := l']> (loops s);
              trace := trace s; crashed := false |}
  | Go i c =>
      l ← loops s !! i;
      r ← runMonitor c (engine s) l;
      let '(e', l', t) := r in
      Some {| engine := e'; loops := <[i := l']> (loops s);
              trace := (trace s ++ t)%list;
              crashed := match pc l' with Panicked => true | _ => false end |}
  end.

Fixpoint run (acts : list Action) (s : System) : option System :=
  match acts with
  | [] => Some s
  | a :: acts' =>
      match step a s with
      | Some s' => run acts' s'
      | None => None
      end
  end.

End runMonitor.

End monitor.

(** ** package store: the SQLite store *)

Module store.

(** An argument of a statement. *)
Inductive Value :=
| VText (s : string)
| VTime (t : go.Time)
| VInt (z : Z).

(** What one [rows.Scan(&ts, &statusInt, &latMs, &r.Error)] wrote. *)
Record Scanned := {
  ts : go.Time;
  statusInt : Z;
  latMs : Z;
  errorMsg : string
}.

(** The database handle: Exec answers nil or an error; Query answers an
    error or the rows, each of which scans or fails to scan. *)
Record DB := {
  db_Exec : string -> list Value -> option go.error;
  db_Query : string -> list Value -> go.error + list (go.error + Scanned)
}.

Record SQLiteStore := { db : DB }.

(** An int64 product or sum, wrapped around. *)
Definition wrapInt64 (z : Z) : Z :=
  (z + 9223372036854775808) mod 18446744073709551616 - 9223372036854775808.

Definition Millisecond : go.Duration := 1000000.

(** The method Milliseconds of time.Duration: [int64(d) / 1e6]. *)
Definition Milliseconds (d : go.Duration) : Z := Z.quot d 1000000.

Definition insertQuery : string :=
  "
	INSERT INTO checks (monitor_name, timestamp, status, latency_ms, error_msg)
	VALUES (?, ?, ?, ?, ?)
	".

Definition selectQuery : string :=
  "
	SELECT timestamp, status, latency_ms, error_msg 
	FROM checks 
	WHERE monitor_name = ? 
	ORDER BY timestamp DESC 
	LIMIT ?
	".

(** The arguments LogCheck binds to the statement. *)
Definition insertArgs (result : monitor.CheckResult) : list Value :=
  let statusInt := if monitor.Status result then 1 else 0 in
  [VText (monitor.MonitorName result);
   VTime (monitor.Timestamp result);
   VInt statusInt;
   VInt (Milliseconds (monitor.Latency result));
   VText (monitor.Error result)].

Definition LogCheck (s : SQLiteStore) (result : monitor.CheckResult)
  : option go.error :=
  db_Exec (db s) insertQuery (insertArgs result).

(** The CheckResult GetHistory builds from a scanned row. *)
Definition fromRow (monitorName : string) (row : Scanned)
  : monitor.CheckResult :=
  {| monitor.MonitorName := monitorName;
     monitor.Timestamp := ts row;
     monitor.Status := (statusInt row =? 1)%Z;
     monitor.Latency := wrapInt64 (latMs row * Millisecond);
     monitor.Error := errorMsg row |}.

(** The loop over [rows.Next()]: the first row that fails to scan ends
    GetHistory with its error. *)
Fixpoint scanRows (monitorName : string) (rows : list (go.error + Scanned))
    (results : list monitor.CheckResult)
  : go.error + list monitor.CheckResult :=
  match rows with
  | [] => inr results
  | inl err :: _ => inl err
  | inr row :: rows' =>
      scanRows monitorName rows' (results ++ [fromRow monitorName row])%list
  end.

(** [l[i]]; [None] is the panic of an index out of range. *)
Definition index {A : Type} (l : list A) (i : Z) : option A :=
  if (i <? 0)%Z then None else l !! Z.to_nat i.

(** The loop [for i, j := 0, len(results)-1; i < j; i, j = i+1, j-1] that
    swaps [results[i]] and [results[j]].  [None]: an index out of range, or
    no fuel left. *)
Fixpoint reverseLoop {A : Type} (fuel : nat) (i j : Z) (results : list A)
  : option (list A) :=
  match fuel with
  | O => None
  | S fuel' =>
      if (i <? j)%Z then
        match index results i, index results j with
        | Some ri, Some rj =>
            reverseLoop fuel' (i + 1) (j - 1)
              (<[Z.to_nat j := ri]> (<[Z.to_nat i := rj]> results))
        | _, _ => None
        end
      else Some results
  end.

Definition reverseInPlace {A : Type} (results : list A) : option (list A) :=
  reverseLoop (S (length results)) 0 (Z.of_nat (length results) - 1) results.

(** GetHistory; the outer [None] is a panic. *)
Definition GetHistory (s : SQLiteStore) (monitorName : string) (limit : Z)
  : option (go.error + list monitor.CheckResult) :=
  match db_Query (db s) selectQuery [VText monitorName; VInt limit] with
  | inl err => Some (inl err)
  | inr rows =>
      match scanRows monitorName rows [] with
      | inl err => Some (inl err)
      | inr results =>
          match reverseInPlace results with
          | Some results' => Some (inr results')
          | None => None
          end
      end
  end.

End store.

(** ** package web: the index page *)

Module web.

Record MonitorView := {
  Name : string;
  IsUp : bool;
  History : list monitor.CheckResult
}.

Record PageData := {
  Now : go.Time;
  Monitors : list MonitorView
}.

(** The loop over [s.Cfg.Monitors] of handleIndex, started with the views
    gathered so far; [None] is a panic. *)
Fixpoint gather (st : store.SQLiteStore) (ms : list config.MonitorConfig)
    (views : list MonitorView) : option (list MonitorView) :=
  match ms with
  | [] => Some views
  | m :: ms' =>
      match store.GetHistory st (config.Name m) 90 with
      | None => None
      | Some (inl _) => gather st ms' views
      | Some (inr history) =>
          let len := Z.of_nat (length history) in
          if (0 <? len)%Z then
            match store.index history (len - 1) with
            | Some r =>
                gather st ms'
                  (views ++ [{| Name := config.Name m;
                                IsUp := monitor.Status r;
                                History := history |}])%list
            | None => None
            end
          else
            gather st ms'
              (views ++ [{| Name := config.Name m;
                            IsUp := false;
                            History := history |}])%list
      end
  end.

(** What handleIndex answers: the error page of a template that does not
    parse, or the template executed on the page data. *)
Inductive Answer :=
| TemplateError (body : string) (code : Z)
| Executed (data : PageData).

(** handleIndex.  [tmpl] says whether [s.Tmpl] is set; [parseFiles] is
    the answer of template.ParseFiles, [now] that of time.Now.  The result
    is the answer and whether [s.Tmpl] is set afterwards. *)
Definition handleIndex (tmpl : bool) (parseFiles : option go.error)
    (now : go.Time) (st : store.SQLiteStore) (cfg : config.Config)
  : option (Answer * bool) :=
  let parsed :=
    if tmpl then inr true
    else match parseFiles with
         | Some err => inl err
         | None => inr true
         end in
  match parsed with
  | inl err => Some (TemplateError ("Template error: " ++ go.Error err) 500, false)
  | inr tmpl' =>
      match gather st (config.Monitors cfg) [] with
      | Some views => Some (Executed {| Now := now; Monitors := views |}, tmpl')
      | None => None
      end
  end.

End web.

(** ** package main: how the parts are put together *)

Module main.

Definition configPath (getenv : string -> string) : string :=
  if negb (getenv "CONFIG_PATH" =? "") then getenv "CONFIG_PATH"
  else "monitors.yaml".

(** A [*store.SQLiteStore] used as the engine's Store. *)
Definition asStore (st : store.SQLiteStore) : monitor.Store :=
  {| monitor.LogCheck := store.LogCheck st |}.

(** A [*notifier.Service] used as the engine's Notifier. *)
Definition asNotifier (s : notifier.Service) : monitor.Notifier :=
  {| monitor.Notify := notifier.Notify s |}.

(** [notif := notifier.NewService(cfg.Notifications)] and
    [engine := monitor.NewEngine(cfg, st, notif)]. *)
Definition engine (cfg : config.Config) (st : store.SQLiteStore)
  : monitor.Engine :=
  let notif := notifier.NewService (config.Notifications cfg) in
  monitor.NewEngine cfg (Some (asStore st)) (Some (asNotifier notif)).

End main.

(** * Properties *)

Import config monitor.

(** ** What one check cycle computes *)

(** The pair [(success, err)] the probe leaves in performCheck, and the
    CheckResult built from it. *)
Definition outcome (w : go.World) (m : MonitorConfig) : bool * option go.error :=
  fst (probe w m).

Definition cycleResult (w : go.World) (m : MonitorConfig) : CheckResult :=
  mkResult w m (fst (outcome w m)) (snd (outcome w m)).

(** The calls of Notifier.Notify in a trace, in order. *)
Fixpoint notifications (t : list Event) : list (string * bool * bool) :=
  match t with
  | [] => []
  | EvNotify name isUp old :: t' => (name, isUp, old) :: notifications t'
  | _ :: t' => notifications t'
  end.

(** The CheckResults handed to Store.LogCheck in a trace, in order. *)
Fixpoint logged (t : list Event) : list CheckResult :=
  match t with
  | [] => []
  | EvLogCheck r :: t' => r :: logged t'
  | _ :: t' => logged t'
  end.

(** Events of a probe: network traffic only. *)
Definition isNetwork (ev : Event) : bool :=
  match ev with
  | EvRequest _ _ _ | EvBodyClose | EvDial _ _ _ | EvConnClose => true
  | _ => false
  end.

(** The trace [alert] leaves, spelled out. *)
Definition alertTrace (w : go.World) (e : Engine) (m : MonitorConfig)
  : list Event :=
  let s := Status (cycleResult w m) in
  match lastState e !! Name m, Notifier_ e with
  | Some old, Some n =>
      if Bool.eqb old s then []
      else EvNotify (Name m) s old :: map EvGo (Notify n w (Name m) s old)
  | _, _ => []
  end.

Definition persistTrace (w : go.World) (e : Engine) (m : MonitorConfig)
  : list Event :=
  match Store_ e with
  | Some _ => [EvLogCheck (cycleResult w m)]
  | None => []
  end.

(** A [*notifier.Service] used as the engine's Notifier. *)
Definition ServiceNotifier (s : notifier.Service) : Notifier :=
  {| Notify := notifier.Notify s |}.

(** [m] with another [Method]. *)
Definition withMethod (m : MonitorConfig) (method : string) : MonitorConfig :=
  {| Name := Name m; Type_ := Type_ m; URL := URL m; Host := Host m;
     Port := Port m; Method := method; ExpectStatus := ExpectStatus m;
     Interval := Interval m |}.

(** The expected status after LoadConfig. *)
Definition expected (m0 : MonitorConfig) : Z :=
  if (ExpectStatus m0 =? 0)%Z then 200 else ExpectStatus m0.

(** The types the switch of performCheck names. *)
Definition knownType (ty : string) : bool :=
  (ty =? "http") || (ty =? "https") || (ty =? "tcp") || (ty =? "icmp").

(** The two shapes of what an executor returns. *)
Definition successOrError (r : bool * option go.error) : Prop :=
  r = (true, None) \/ exists err, r = (false, Some err).

(** The HTTP requests in a trace: method and URL, in order. *)
Fixpoint requests (t : list Event) : list (string * string) :=
  match t with
  | [] => []
  | EvRequest _ method url :: t' => (method, url) :: requests t'
  | _ :: t' => requests t'
  end.

(** The string runMonitor's interval comes from. *)
Definition intervalString (e : Engine) (m : MonitorConfig) : string :=
  if Interval m =? "" then CheckInterval (Global (Cfg e)) else Interval m.

(** [e] with another store. *)
Definition withStore (e : Engine) (store : option Store) : Engine :=
  {| Cfg := Cfg e; Store_ := store; Notifier_ := Notifier_ e;
     lastState := lastState e; stopCh := stopCh e |}.

(** [w] with another answer of http.Post. *)
Definition withPost (w : go.World)
    (post : string -> string -> gmap string string -> go.error + go.Response)
  : go.World :=
  {| go.time_Now := go.time_Now w;
     go.time_Since := go.time_Since w;
     go.now_RFC1123 := go.now_RFC1123 w;
     go.client_Do := go.client_Do w;
     go.net_DialTimeout := go.net_DialTimeout w;
     go.http_Post := post |}.

(** What Notify of a Service leaves in the trace of its caller. *)
Definition notifyTrace (s : notifier.Service) (w : go.World)
    (name : string) (new old : bool) : list Event :=
  EvNotify name new old
  :: map (fun sender =>
            EvGo (notifier.GoSend sender (notifier.message w name new)))
         (notifier.Senders s).

(** A goroutine that has not created its ticker, or has returned or
    panicked, has no running ticker. *)
Definition tickerStopped (l : Loop) : Prop :=
  match pc l with
  | Spawned | Returned | Panicked => ticker l = None
  | Checking | Waiting => True
  end.

(** The libraries hand out errors whose text is not empty (url.Error and
    net.OpError print their operation first). *)
Definition errorsHaveText (w : go.World) : Prop :=
  (forall timeout method url err,
      go.client_Do w timeout method url = inl err -> go.Error err <> "")
  /\ (forall network address timeout err,
      go.net_DialTimeout w network address timeout = Some err ->
      go.Error err <> "").

(** ** Concrete inputs used in the examples *)

(** The answers of time.ParseDuration on a few strings. *)
Definition sampleParse (d : string) : go.error + go.Duration :=
  if d =? "60s" then inr (60 * go.Second)
  else if d =? "5m" then inr (300 * go.Second)
  else if d =? "5s" then inr (5 * go.Second)
  else if d =? "0s" then inr 0
  else if d =? "-5s" then inr (-5 * go.Second)
  else inl (go.libError ("time: invalid duration " ++ d)).

(** A world in which every GET is answered with [code], every other
    request with 405, nothing listens on any port, and posts succeed. *)
Definition answering (code : Z) : go.World :=
  {| go.time_Now := 1700000000;
     go.time_Since := fun _ => 12000000;
     go.now_RFC1123 := "Tue, 14 Nov 2023 22:13:20 UTC";
     go.client_Do := fun _ method _ =>
       if method =? "GET" then inr {| go.StatusCode := code |}
       else inr {| go.StatusCode := 405 |};
     go.net_DialTimeout := fun _ address _ =>
       Some (go.libError ("dial tcp " ++ address ++ ": connect: connection refused"));
     go.http_Post := fun _ _ _ => inr {| go.StatusCode := 200 |} |}.

(** A world without network. *)
Definition offline : go.World :=
  {| go.time_Now := 1700000000;
     go.time_Since := fun _ => 10 * go.Second;
     go.now_RFC1123 := "Tue, 14 Nov 2023 22:13:20 UTC";
     go.client_Do := fun _ _ url =>
       inl (go.libError ("Get " ++ url ++ ": dial tcp: no route to host"));
     go.net_DialTimeout := fun _ address _ =>
       Some (go.libError ("dial tcp " ++ address ++ ": i/o timeout"));
     go.http_Post := fun url _ _ =>
       inl (go.libError ("Post " ++ url ++ ": dial tcp: no route to host")) |}.

Definition svc : MonitorConfig :=
  {| Name := "svc"; Type_ := "http"; URL := "http://x/health"; Host := "";
     Port := 0; Method := "GET"; ExpectStatus := 200; Interval := "" |}.

Definition ping : MonitorConfig :=
  {| Name := "dns"; Type_ := "icmp"; URL := ""; Host := "8.8.8.8";
     Port := 0; Method := "GET"; ExpectStatus := 200; Interval := "" |}.

Definition untyped : MonitorConfig :=
  {| Name := "odd"; Type_ := "ftp"; URL := ""; Host := "h";
     Port := 21; Method := "GET"; ExpectStatus := 200; Interval := "" |}.

Definition okStore : Store := {| LogCheck := fun _ => None |}.

Definition failingStore : Store :=
  {| LogCheck := fun _ => Some (go.libError "database is locked") |}.

Definition slack : notifier.Service :=
  {| notifier.Senders := [notifier.SlackSender "https://hooks.example/T0"] |}.

Definition sampleConfig (global : string) (ms : list MonitorConfig) : Config :=
  {| Global := {| CheckInterval := global; HistoryDays := 90 |};
     Notifications := [];
     Monitors := ms |}.

(** An engine with one monitor [svc] whose interval string is [d]. *)
Definition engineWithInterval (d : string) : Engine :=
  NewEngine (sampleConfig d [svc]) (Some okStore) None.

Definition sampleEngine : Engine :=
  NewEngine (sampleConfig "60s" [svc]) (Some okStore)
    (Some (ServiceNotifier slack)).

(** The process of [sampleEngine] after Stop, its one loop at the select
    with no tick pending. *)
Definition stoppedAtSelect : System :=
  {| engine := {| Cfg := Cfg sampleEngine;
                  Store_ := Store_ sampleEngine;
                  Notifier_ := Notifier_ sampleEngine;
                  lastState := <["svc" := true]> ∅;
                  stopCh := true |};
     loops := [{| target := svc; pc := Waiting;
                  ticker := Some 60000000000; tick := false |}];
     trace := [];
     crashed := false |}.

(** ** Further notions used below *)

(** The error of the default case of performCheck's switch. *)
Definition unknownType : bool * option go.error :=
  (false, Some (go.errorString "unknown monitor type")).

(** A file system holding one file, and a decoder that answers [raw]. *)
Definition oneFile (name content : string) (path : string) : go.error + string :=
  if path =? name then inr content
  else inl (go.libError ("open " ++ path ++ ": no such file or directory")).

Definition decodesTo (raw : Config) (data : string) : go.error + Config :=
  inr raw.

(** A decoded file: nothing set but addresses. *)
Definition bare (name url host : string) (port : Z) : MonitorConfig :=
  {| Name := name; Type_ := ""; URL := url; Host := host; Port := port;
     Method := ""; ExpectStatus := 0; Interval := "" |}.

Definition rawConfig : Config :=
  {| Global := {| CheckInterval := ""; HistoryDays := 0 |};
     Notifications :=
       [{| Type_n := "telegram"; Token := "t0"; ChatID := "42"; WebhookURL := "" |};
        {| Type_n := "slack"; Token := ""; ChatID := ""; WebhookURL := "" |};
        {| Type_n := "slack"; Token := ""; ChatID := "";
           WebhookURL := "https://hooks.example/T0" |};
        {| Type_n := "email"; Token := "x"; ChatID := "y"; WebhookURL := "z" |}];
     Monitors :=
       [bare "api" "https://api.example/health" "" 0;
        bare "db" "" "db.example" 5432;
        bare "dns" "" "8.8.8.8" 0;
        bare "odd" "" "" 80] |}.

(** The goroutines started in a trace, in order. *)
Fixpoint goroutines (t : list Event) : list notifier.Goroutine :=
  match t with
  | [] => []
  | EvGo g :: t' => g :: goroutines t'
  | _ :: t' => goroutines t'
  end.




(** The row a table that stores what it is given holds for the arguments
    of the insert statement. *)
Definition storedRow (args : list store.Value) : option store.Scanned :=
  match args with
  | [store.VText _; store.VTime t; store.VInt st; store.VInt lat; store.VText e] =>
      Some {| store.ts := t; store.statusInt := st; store.latMs := lat;
              store.errorMsg := e |}
  | _ => None
  end.

(** The error of the first row that fails to scan, and the rows that
    scan. *)
Fixpoint firstScanError (rows : list (go.error + store.Scanned))
  : option go.error :=
  match rows with
  | [] => None
  | inl err :: _ => Some err
  | inr _ :: rows' => firstScanError rows'
  end.

Fixpoint scannedRows (rows : list (go.error + store.Scanned))
  : list store.Scanned :=
  match rows with
  | [] => []
  | inl _ :: rows' => scannedRows rows'
  | inr row :: rows' => row :: scannedRows rows'
  end.

(** The view of the index page for one monitor, read off the answer of the
    database to the history query: none when the query or a row fails, and
    otherwise up exactly when the first row returned has status 1. *)
Definition viewsOf (st : store.SQLiteStore) (m : MonitorConfig)
  : list web.MonitorView :=
  match store.db_Query (store.db st) store.selectQuery
          [store.VText (Name m); store.VInt 90] with
  | inl _ => []
  | inr rows =>
      match firstScanError rows with
      | Some _ => []
      | None =>
          [{| web.Name := Name m;
              web.IsUp := match scannedRows rows with
                          | row :: _ => (store.statusInt row =? 1)%Z
                          | [] => false
                          end;
              web.History := rev (map (store.fromRow (Name m))
                                    (scannedRows rows)) |}]
      end
  end.

(** A database that answers the history query with two rows, the newer
    one first, and a store on it. *)
Definition twoRows : store.DB :=
  {| store.db_Exec := fun _ _ => None;
     store.db_Query := fun _ _ =>
       inr [inr {| store.ts := 1700000060; store.statusInt := 0;
                   store.latMs := 10000; store.errorMsg := "timeout" |};
            inr {| store.ts := 1700000000; store.statusInt := 1;
                   store.latMs := 12; store.errorMsg := "" |}] |}.

Definition sampleStore : store.SQLiteStore := {| store.db := twoRows |}.





(** Go through every branch of the conditionals in the goal. *)
Ltac case_ifs :=
  repeat match goal with
         | |- context [if ?b then _ else _] => destruct b
         end.

Lemma notifications_app (t1 t2 : list Event) :
  notifications (t1 ++ t2) = (notifications t1 ++ notifications t2)%list.
Proof.
  induction t1 as [|ev t1 IH]; [reflexivity|].
  destruct ev; simpl; rewrite ?IH; reflexivity.
Qed.

Lemma logged_app (t1 t2 : list Event) :
  logged (t1 ++ t2) = (logged t1 ++ logged t2)%list.
Proof.
  induction t1 as [|ev t1 IH]; [reflexivity|].
  destruct ev; simpl; rewrite ?IH; reflexivity.
Qed.

Lemma notifications_network (t : list Event) :
  forallb isNetwork t = true -> notifications t = [].
Proof.
  induction t as [|ev t IH]; [reflexivity|].
  destruct ev; simpl; intros H; try discriminate; auto.
Qed.

Lemma logged_network (t : list Event) :
  forallb isNetwork t = true -> logged t = [].
Proof.
  induction t as [|ev t IH]; [reflexivity|].
  destruct ev; simpl; intros H; try discriminate; auto.
Qed.

Lemma notifications_go (gs : list notifier.Goroutine) :
  notifications (map EvGo gs) = [].
Proof. induction gs; simpl; auto. Qed.

Lemma logged_go (gs : list notifier.Goroutine) :
  logged (map EvGo gs) = [].
Proof. induction gs; simpl; auto. Qed.

Lemma checkHTTP_network (w : go.World) (m : MonitorConfig) :
  forallb isNetwork (snd (checkHTTP w m)) = true.
Proof.
  unfold checkHTTP, go.client_Get.
  destruct (go.client_Do w _ _ _); reflexivity.
Qed.

Lemma checkTCP_network (w : go.World) (m : MonitorConfig) :
  forallb isNetwork (snd (checkTCP w m)) = true.
Proof.
  unfold checkTCP.
  destruct (go.net_DialTimeout w _ _ _); reflexivity.
Qed.

Lemma probe_network (w : go.World) (m : MonitorConfig) :
  forallb isNetwork (snd (probe w m)) = true.
Proof.
  unfold probe.
  case_ifs; auto using checkHTTP_network, checkTCP_network.
Qed.

(** performCheck, step by step: the probe, the store, the critical section
    on [lastState], the notifier. *)
Lemma performCheck_unfold (w : go.World) (e : Engine) (m : MonitorConfig) :
  performCheck w e m =
  (setLastState e (<[Name m := Status (cycleResult w m)]> (lastState e)),
   (snd (probe w m) ++ persistTrace w e m ++ [EvLock; EvUnlock]
    ++ alertTrace w e m)%list).
Proof.
  unfold performCheck, persistTrace, alertTrace, cycleResult, outcome,
    persist, alert, lookupState.
  destruct (probe w m) as [[s er] t]; simpl.
  destruct (Store_ e), (lastState e !! Name m) as [old|], (Notifier_ e);
    simpl; try destruct (Bool.eqb old s); simpl;
    rewrite ?app_nil_r; reflexivity.
Qed.

Lemma In_notifications (t : list Event) (name : string) (isUp old : bool) :
  In (EvNotify name isUp old) t <-> In (name, isUp, old) (notifications t).
Proof.
  induction t as [|ev t IH]; simpl; [tauto|].
  destruct ev; simpl; rewrite <- ?IH;
    try (split; [intros [H|H]; [discriminate|exact H] | auto]).
  split.
  - intros [H|H]; [left; congruence | right; exact H].
  - intros [H|H]; [left; congruence | right; exact H].
Qed.

(** The calls of Notify one check cycle makes. *)
Lemma performCheck_notifications (w : go.World) (e : Engine) (m : MonitorConfig) :
  notifications (snd (performCheck w e m)) =
  match lastState e !! Name m, Notifier_ e with
  | Some old, Some _ =>
      if Bool.eqb old (Status (cycleResult w m)) then []
      else [(Name m, Status (cycleResult w m), old)]
  | _, _ => []
  end.
Proof.
  rewrite performCheck_unfold; simpl.
  rewrite !notifications_app, (notifications_network _ (probe_network w m)).
  unfold persistTrace, alertTrace.
  destruct (Store_ e), (lastState e !! Name m) as [old|], (Notifier_ e);
    simpl; try destruct (Bool.eqb old _); simpl;
    rewrite ?notifications_go; reflexivity.
Qed.

Lemma performCheck_lastState (w : go.World) (e : Engine) (m : MonitorConfig) :
  lastState (fst (performCheck w e m)) =
  <[Name m := Status (cycleResult w m)]> (lastState e).
Proof. rewrite performCheck_unfold; reflexivity. Qed.

(** C1.  With a notifier in place, one check cycle calls Notify exactly when
    a status is recorded for the target and differs from the new one, and
    then once, with the target's name, the new status and the recorded
    one; with no status recorded it calls nothing, whatever the new status
    is; afterwards the recorded status is the new result's status. *)
Theorem C1_transition_detection
    (w : go.World) (e : Engine) (m : MonitorConfig) (n : Notifier) :
  Notifier_ e = Some n ->
  let t := snd (performCheck w e m) in
  let e' := fst (performCheck w e m) in
  let new := Status (cycleResult w m) in
  (forall name isUp old,
      In (EvNotify name isUp old) t <->
      name = Name m /\ isUp = new /\
      lastState e !! Name m = Some old /\ old <> new)
  /\ (forall old, lastState e !! Name m = Some old -> old <> new ->
        notifications t = [(Name m, new, old)])
  /\ (lastState e !! Name m = None -> notifications t = [])
  /\ lastState e' !! Name m = Some new.
Proof.
  intros Hn t e' new.
  assert (Ht : notifications t =
               match lastState e !! Name m with
               | Some old => if Bool.eqb old new then [] else [(Name m, new, old)]
               | None => []
               end).
  { subst t new. rewrite performCheck_notifications, Hn.
    destruct (lastState e !! Name m); reflexivity. }
  split; [|split; [|split]].
  - intros name isUp old. rewrite In_notifications, Ht.
    destruct (lastState e !! Name m) as [p|]; simpl.
    + destruct (Bool.eqb p new) eqn:E; simpl.
      * apply Bool.eqb_prop in E. split; [tauto|].
        intros (_ & _ & Hp & Hne). congruence.
      * split.
        -- intros [H|[]]. inversion H; subst.
           repeat split; try reflexivity.
           intros Heq. rewrite Heq, Bool.eqb_reflx in E. discriminate.
        -- intros (-> & -> & Hp & _). left. congruence.
    + split; [tauto|]. intros (_ & _ & Hp & _). discriminate.
  - intros old Hp Hne. rewrite Ht, Hp.
    destruct (Bool.eqb old new) eqn:E; [|reflexivity].
    apply Bool.eqb_prop in E. contradiction.
  - intros Hp. rewrite Ht, Hp. reflexivity.
  - subst e' new. rewrite performCheck_lastState. apply lookup_insert_eq.
Qed.

Lemma C1_transition_detection_witness :
  Notifier_ (fst (performCheck (answering 200) sampleEngine svc))
  = Some (ServiceNotifier slack)
  /\ notifications
       (snd (performCheck (answering 503)
               (fst (performCheck (answering 200) sampleEngine svc)) svc))
     = [("svc", false, true)].
Proof.
  split; [reflexivity|].
  pose proof (C1_transition_detection (answering 503)
                (fst (performCheck (answering 200) sampleEngine svc)) svc
                (ServiceNotifier slack) eq_refl) as (_ & H & _).
  apply (H true); [reflexivity | discriminate].
Defined.

(** A cycle of one target leaves the recorded status of every other
    target as it was. *)
Lemma performCheck_other (w : go.World) (e : Engine) (m : MonitorConfig)
    (name : string) :
  name <> Name m ->
  lastState (fst (performCheck w e m)) !! name = lastState e !! name.
Proof.
  intros H. rewrite performCheck_lastState.
  apply lookup_insert_ne. congruence.
Qed.

(** Two cycles of one target, with a cycle of another target in between:
    the later one calls Notify exactly when its status differs from that of
    the earlier one, the first of them only if a status was recorded. *)
Lemma consecutive_cycles (w1 w2 w3 : go.World) (e : Engine)
    (m other : MonitorConfig) (n : Notifier) :
  Notifier_ e = Some n ->
  Name other <> Name m ->
  let e1 := fst (performCheck w1 e m) in
  let e2 := fst (performCheck w2 e1 other) in
  let s1 := Status (cycleResult w1 m) in
  let s3 := Status (cycleResult w3 m) in
  notifications (snd (performCheck w3 e2 m)) =
  if Bool.eqb s1 s3 then [] else [(Name m, s3, s1)].
Proof.
  intros Hn Hne e1 e2 s1 s3.
  rewrite performCheck_notifications.
  subst e2. rewrite performCheck_other by congruence.
  subst e1. rewrite performCheck_lastState, lookup_insert_eq.
  rewrite !performCheck_unfold. simpl. rewrite Hn. reflexivity.
Qed.

(** What LoadConfig returns is the decoded file with the defaults put in:
    every monitor went through [monitorDefaults]. *)
Lemma LoadConfig_defaults
    (os_ReadFile : string -> go.error + string)
    (yaml_Unmarshal : string -> go.error + Config)
    (path : string) (cfg : Config) :
  LoadConfig os_ReadFile yaml_Unmarshal path = inr cfg ->
  exists data raw,
    os_ReadFile path = inr data
    /\ yaml_Unmarshal data = inr raw
    /\ Monitors cfg = map monitorDefaults (Monitors raw)
    /\ CheckInterval (Global cfg)
       = (if CheckInterval (Global raw) =? "" then "60s"
          else CheckInterval (Global raw)).
Proof.
  unfold LoadConfig.
  destruct (os_ReadFile path) as [err|data]; [discriminate|].
  destruct (yaml_Unmarshal data) as [err|raw] eqn:E; [discriminate|].
  intros [= <-]. exists data, raw. repeat split. exact E.
Qed.

(** ** The probes *)

(** What checkHTTP returns, by the answer of the client. *)
Lemma checkHTTP_outcome (w : go.World) (m : MonitorConfig) :
  fst (checkHTTP w m) =
  match go.client_Get w (10 * go.Second) (URL m) with
  | inl err => (false, Some err)
  | inr resp =>
      if (go.StatusCode resp =? ExpectStatus m)%Z then (true, None)
      else (false,
            Some (go.errorString
                    ("status code " ++ go.fmt_d (go.StatusCode resp)
                     ++ ", expected " ++ go.fmt_d (ExpectStatus m))))
  end.
Proof.
  unfold checkHTTP.
  destruct (go.client_Get w _ _) as [err|resp]; simpl; [reflexivity|].
  destruct (go.StatusCode resp =? ExpectStatus m)%Z; reflexivity.
Qed.

Lemma checkTCP_outcome (w : go.World) (m : MonitorConfig) :
  fst (checkTCP w m) =
  match go.net_DialTimeout w "tcp" (Host m ++ ":" ++ go.fmt_d (Port m))
          (10 * go.Second) with
  | Some err => (false, Some err)
  | None => (true, None)
  end.
Proof.
  unfold checkTCP.
  destruct (go.net_DialTimeout w _ _ _); reflexivity.
Qed.

(** C2.  For a monitor as LoadConfig leaves it, the HTTP probe succeeds
    exactly when the client returns a response whose status code is the
    expected status, 200 when none was set; a response with another code
    gives the error "status code X, expected Y"; an error of the client is
    returned as it is. *)
Theorem C2_http_probe (w : go.World) (m0 : MonitorConfig) :
  let m := monitorDefaults m0 in
  let answer := go.client_Get w (10 * go.Second) (URL m0) in
  ExpectStatus m = expected m0
  /\ (fst (fst (checkHTTP w m)) = true <->
      exists resp, answer = inr resp /\ go.StatusCode resp = expected m0)
  /\ (forall resp, answer = inr resp -> go.StatusCode resp <> expected m0 ->
      fst (checkHTTP w m) =
      (false,
       Some (go.errorString
               ("status code " ++ go.fmt_d (go.StatusCode resp)
                ++ ", expected " ++ go.fmt_d (expected m0)))))
  /\ (forall err, answer = inl err -> fst (checkHTTP w m) = (false, Some err)).
Proof.
  intros m answer.
  assert (He : ExpectStatus m = expected m0) by reflexivity.
  assert (Ho := checkHTTP_outcome w m).
  change (URL m) with (URL m0) in Ho. fold answer in Ho. rewrite He in Ho.
  split; [exact He|]. split; [|split].
  - rewrite Ho. destruct answer as [err|resp]; simpl.
    + split; [discriminate|]. intros (r & H & _). discriminate.
    + destruct (Z.eqb_spec (go.StatusCode resp) (expected m0)) as [E|E]; simpl.
      * split; [|reflexivity]. intros _. exists resp. auto.
      * split; [discriminate|]. intros (r & H & Hr).
        inversion H; subst. contradiction.
  - intros resp Ha Hne. rewrite Ho, Ha.
    destruct (Z.eqb_spec (go.StatusCode resp) (expected m0)); [contradiction|].
    reflexivity.
  - intros err Ha. rewrite Ho, Ha. reflexivity.
Qed.

Lemma C2_http_probe_witness :
  fst (checkHTTP (answering 503) (monitorDefaults {|
         Name := "svc"; Type_ := ""; URL := "http://x/health"; Host := "";
         Port := 0; Method := ""; ExpectStatus := 0; Interval := "" |}))
  = (false, Some (go.errorString "status code 503, expected 200")).
Proof.
  pose proof (C2_http_probe (answering 503) {|
         Name := "svc"; Type_ := ""; URL := "http://x/health"; Host := "";
         Port := 0; Method := ""; ExpectStatus := 0; Interval := "" |})
    as (_ & _ & H & _).
  apply (H {| go.StatusCode := 503 |}); [reflexivity|].
  simpl. discriminate.
Defined.

(** The spec's scenario: 200, then 503. *)
Example scenario_svc :
  let '(e1, t1) := performCheck (answering 200) sampleEngine svc in
  let '(e2, t2) := performCheck (answering 503) e1 svc in
  map Status (logged t1) = [true]
  /\ notifications t1 = []
  /\ map Status (logged t2) = [false]
  /\ map Error (logged t2) = ["status code 503, expected 200"]
  /\ notifications t2 = [("svc", false, true)].
Proof. vm_compute. repeat split. Qed.

(** C4.  The ICMP probe answers failure with the same error whatever the
    target and the world; the error is made by the program (it is no
    error of the network), its text says "not yet implemented", and the
    CheckResult of an icmp target carries that text and is down. *)
Theorem C4_icmp_unimplemented (w : go.World) (m : MonitorConfig) :
  let text := "ICMP not yet implemented (requires decision on root vs shell)" in
  checkICMP m = (false, Some (go.errorString text), [])
  /\ go.Contains text "not yet implemented" = true
  /\ (forall s, go.errorString text <> go.libError s)
  /\ (Type_ m = "icmp" ->
      probe w m = checkICMP m
      /\ Status (cycleResult w m) = false
      /\ Error (cycleResult w m) = text).
Proof.
  intros text. split; [reflexivity|]. split; [reflexivity|].
  split; [discriminate|].
  intros Ht.
  assert (Hp : probe w m = checkICMP m) by (unfold probe; rewrite Ht; reflexivity).
  split; [exact Hp|].
  unfold cycleResult, outcome. rewrite Hp. split; reflexivity.
Qed.

Lemma C4_icmp_unimplemented_witness :
  Type_ ping = "icmp"
  /\ Status (cycleResult offline ping) = false
  /\ Error (cycleResult offline ping)
     = "ICMP not yet implemented (requires decision on root vs shell)".
Proof.
  split; [reflexivity|].
  pose proof (C4_icmp_unimplemented offline ping) as (_ & _ & _ & H).
  destruct (H eq_refl) as (_ & H1 & H2). split; assumption.
Defined.

(** The CheckResults one check cycle hands to the store. *)
Lemma performCheck_logged (w : go.World) (e : Engine) (m : MonitorConfig) :
  logged (snd (performCheck w e m)) =
  match Store_ e with
  | Some _ => [cycleResult w m]
  | None => []
  end.
Proof.
  rewrite performCheck_unfold; simpl.
  rewrite !logged_app, (logged_network _ (probe_network w m)).
  unfold persistTrace, alertTrace.
  destruct (Store_ e), (lastState e !! Name m) as [old|], (Notifier_ e);
    simpl; try destruct (Bool.eqb old _); simpl;
    rewrite ?logged_go; reflexivity.
Qed.

Lemma probe_default (w : go.World) (m : MonitorConfig) :
  knownType (Type_ m) = false ->
  probe w m =
  if negb (URL m =? "") then checkHTTP w m
  else ret (false, Some (go.errorString "unknown monitor type")).
Proof.
  unfold knownType, probe. intros H.
  destruct (Type_ m =? "http"), (Type_ m =? "https"), (Type_ m =? "tcp"),
    (Type_ m =? "icmp"); try discriminate; reflexivity.
Qed.

(** After LoadConfig the type is still unset only for a monitor with
    neither URL nor host. *)
Lemma inferType_unset (m0 : MonitorConfig) :
  inferType m0 = "" <-> Type_ m0 = "" /\ URL m0 = "" /\ Host m0 = "".
Proof.
  unfold inferType.
  destruct (String.eqb_spec (Type_ m0) "") as [Ht|Ht];
    [|split; [contradiction | tauto]].
  destruct (String.eqb_spec (URL m0) "") as [Hu|Hu]; simpl.
  - destruct (String.eqb_spec (Host m0) "") as [Hh|Hh]; simpl.
    + tauto.
    + destruct (Port m0 =? 0)%Z; simpl;
        (split; [discriminate | tauto]).
  - split; [discriminate | tauto].
Qed.

(** C5.  For a target whose type is none of http, https, tcp and icmp
    (the unset type among them), the probe is the HTTP probe when the URL
    is not empty; otherwise the cycle yields a CheckResult that is down
    with the error "unknown monitor type", and that result goes to the
    store like any other. *)
Theorem C5_unknown_type (w : go.World) (e : Engine) (m : MonitorConfig) :
  knownType (Type_ m) = false ->
  (URL m <> "" -> probe w m = checkHTTP w m)
  /\ (URL m = "" ->
      probe w m = (false, Some (go.errorString "unknown monitor type"), [])
      /\ Status (cycleResult w m) = false
      /\ Error (cycleResult w m) = "unknown monitor type"
      /\ (forall store, Store_ e = Some store ->
          logged (snd (performCheck w e m)) = [cycleResult w m])).
Proof.
  intros Hk. pose proof (probe_default w m Hk) as Hp. split.
  - intros Hu. rewrite Hp.
    destruct (String.eqb_spec (URL m) ""); [contradiction|reflexivity].
  - intros Hu. rewrite Hu in Hp. simpl in Hp.
    split; [exact Hp|].
    unfold cycleResult, outcome. rewrite Hp. simpl.
    split; [reflexivity|]. split; [reflexivity|].
    intros store Hs. rewrite performCheck_logged, Hs.
    unfold cycleResult, outcome. rewrite Hp. reflexivity.
Qed.

Lemma C5_unknown_type_witness :
  knownType (Type_ untyped) = false
  /\ URL untyped = ""
  /\ map (fun r => (Status r, Error r))
       (logged (snd (performCheck offline sampleEngine untyped)))
     = [(false, "unknown monitor type")].
Proof.
  split; [reflexivity|]. split; [reflexivity|].
  pose proof (C5_unknown_type offline sampleEngine untyped eq_refl) as [_ H].
  destruct (H eq_refl) as (_ & Hs & He & Hl).
  rewrite (Hl okStore eq_refl). unfold map. rewrite Hs, He. reflexivity.
Defined.

Lemma checkHTTP_successOrError (w : go.World) (m : MonitorConfig) :
  successOrError (fst (checkHTTP w m)).
Proof.
  rewrite checkHTTP_outcome. unfold successOrError.
  destruct (go.client_Get w _ _) as [err|resp]; [eauto|].
  destruct (go.StatusCode resp =? ExpectStatus m)%Z; eauto.
Qed.

Lemma checkTCP_successOrError (w : go.World) (m : MonitorConfig) :
  successOrError (fst (checkTCP w m)).
Proof.
  rewrite checkTCP_outcome. unfold successOrError.
  destruct (go.net_DialTimeout w _ _ _); eauto.
Qed.

Lemma checkICMP_successOrError (m : MonitorConfig) :
  successOrError (fst (checkICMP m)).
Proof. right. eexists. reflexivity. Qed.

(** The probe of a cycle is one of the three executors or the error of the
    default case. *)
Lemma outcome_cases (w : go.World) (m : MonitorConfig) :
  outcome w m = fst (checkHTTP w m)
  \/ outcome w m = fst (checkTCP w m)
  \/ outcome w m = fst (checkICMP m)
  \/ outcome w m = (false, Some (go.errorString "unknown monitor type")).
Proof.
  unfold outcome, probe.
  case_ifs; auto.
Qed.

Lemma outcome_successOrError (w : go.World) (m : MonitorConfig) :
  successOrError (outcome w m).
Proof.
  destruct (outcome_cases w m) as [H|[H|[H|H]]]; rewrite H.
  - apply checkHTTP_successOrError.
  - apply checkTCP_successOrError.
  - apply checkICMP_successOrError.
  - right. eexists. reflexivity.
Qed.

(** The error of a failed probe has a text, when those of the libraries do. *)
Lemma outcome_error_text (w : go.World) (m : MonitorConfig) (err : go.error) :
  errorsHaveText w ->
  snd (outcome w m) = Some err -> go.Error err <> "".
Proof.
  intros [Hget Hdial].
  destruct (outcome_cases w m) as [H|[H|[H|H]]]; rewrite H; clear H.
  - rewrite checkHTTP_outcome. unfold go.client_Get.
    destruct (go.client_Do w _ _ _) as [e1|resp] eqn:E; simpl.
    + intros [= <-]. eapply Hget, E.
    + destruct (go.StatusCode resp =? ExpectStatus m)%Z; simpl;
        [discriminate|]. intros [= <-]. discriminate.
  - rewrite checkTCP_outcome.
    destruct (go.net_DialTimeout w _ _ _) as [e1|] eqn:E; simpl;
      [|discriminate]. intros [= <-]. eapply Hdial, E.
  - simpl. intros [= <-]. discriminate.
  - simpl. intros [= <-]. discriminate.
Qed.

(** C6.  Every executor, and the probe of every cycle, returns either
    success without error or failure with an error; so a CheckResult that
    is up has no error description, and, the errors of the libraries
    having a text, a CheckResult has an error description exactly when it
    is down. *)
Theorem C6_error_iff_down (w : go.World) (m : MonitorConfig) :
  errorsHaveText w ->
  (Error (cycleResult w m) <> "" <-> Status (cycleResult w m) = false)
  /\ successOrError (outcome w m)
  /\ successOrError (fst (checkHTTP w m))
  /\ successOrError (fst (checkTCP w m))
  /\ successOrError (fst (checkICMP m)).
Proof.
  intros Hw.
  split; [|auto using outcome_successOrError, checkHTTP_successOrError,
             checkTCP_successOrError, checkICMP_successOrError].
  pose proof (outcome_error_text w m) as Htext.
  unfold cycleResult, mkResult; simpl.
  destruct (outcome_successOrError w m) as [H|[err H]]; rewrite H in *; simpl.
  - split; [intros Hne; contradiction Hne; reflexivity | discriminate].
  - split; [reflexivity|]. intros _. apply (Htext err Hw eq_refl).
Qed.

Lemma C6_error_iff_down_witness :
  errorsHaveText offline
  /\ (Error (cycleResult offline svc) <> ""
      <-> Status (cycleResult offline svc) = false).
Proof.
  assert (H : errorsHaveText offline)
    by (split; simpl; intros; simplify_eq; discriminate).
  split; [exact H|].
  exact (proj1 (C6_error_iff_down offline svc H)).
Defined.

(** ** The method of the HTTP probe *)

Lemma checkHTTP_withMethod (w : go.World) (m : MonitorConfig) (method : string) :
  checkHTTP w (withMethod m method) = checkHTTP w m.
Proof. reflexivity. Qed.

Lemma probe_withMethod (w : go.World) (m : MonitorConfig) (method : string) :
  probe w (withMethod m method) = probe w m.
Proof. reflexivity. Qed.

Lemma checkHTTP_requests (w : go.World) (m : MonitorConfig) :
  requests (snd (checkHTTP w m)) = [("GET", URL m)].
Proof.
  unfold checkHTTP.
  destruct (go.client_Get w _ _); reflexivity.
Qed.

(** C9.  The HTTP probe does not read [Method]: it sends exactly one
    request, a GET to the target's URL, and the probe and the whole check
    cycle of a target are those of the same target with any other method,
    "POST" and "GET" among them; LoadConfig leaves a set method as it is
    and puts "GET" for an unset one. *)
Theorem C9_http_probe_always_get
    (w : go.World) (e : Engine) (m : MonitorConfig) (method : string) :
  requests (snd (checkHTTP w m)) = [("GET", URL m)]
  /\ checkHTTP w (withMethod m method) = checkHTTP w m
  /\ checkHTTP w (withMethod m "POST") = checkHTTP w (withMethod m "GET")
  /\ performCheck w e (withMethod m method) = performCheck w e m
  /\ Method (monitorDefaults m) = (if Method m =? "" then "GET" else Method m)
  /\ fst (checkHTTP w m) =
     match go.client_Do w (10 * go.Second) "GET" (URL m) with
     | inl err => (false, Some err)
     | inr resp =>
         if (go.StatusCode resp =? ExpectStatus m)%Z then (true, None)
         else (false,
               Some (go.errorString
                       ("status code " ++ go.fmt_d (go.StatusCode resp)
                        ++ ", expected " ++ go.fmt_d (ExpectStatus m))))
     end.
Proof.
  split; [apply checkHTTP_requests|].
  split; [reflexivity|]. split; [reflexivity|]. split; [reflexivity|].
  split; [reflexivity|]. apply checkHTTP_outcome.
Qed.

(** A server that answers 200 to GET and 405 to everything else: the
    probe of a target configured with POST is up. *)
Example post_target_is_probed_with_get :
  Method (withMethod svc "POST") = "POST"
  /\ go.client_Do (answering 200) (10 * go.Second) "POST" (URL svc)
     = inr {| go.StatusCode := 405 |}
  /\ checkHTTP (answering 200) (withMethod svc "POST")
     = (true, None, [EvRequest (10 * go.Second) "GET" "http://x/health"; EvBodyClose]).
Proof. repeat split. Qed.

(** ** Intervals *)

Section Intervals.

Variable parse : string -> go.error + go.Duration.

Lemma interval_intervalString (e : Engine) (m : MonitorConfig) :
  interval parse e m = ParseDuration parse (intervalString e m).
Proof.
  unfold interval, intervalString.
  destruct (Interval m =? ""); reflexivity.
Qed.

Lemma ParseDuration_ok (d : string) (v : go.Duration) :
  parse d = inr v -> ParseDuration parse d = v.
Proof. unfold ParseDuration. intros ->. reflexivity. Qed.



End Intervals.



(** ** The side effects of a check cycle *)

Lemma alertTrace_Service (w : go.World) (e : Engine) (m : MonitorConfig)
    (s : notifier.Service) :
  Notifier_ e = Some (ServiceNotifier s) ->
  alertTrace w e m =
  match lastState e !! Name m with
  | Some old =>
      if Bool.eqb old (Status (cycleResult w m)) then []
      else notifyTrace s w (Name m) (Status (cycleResult w m)) old
  | None => []
  end.
Proof.
  intros Hn. unfold alertTrace, notifyTrace. rewrite Hn.
  destruct (lastState e !! Name m) as [old|]; [|reflexivity].
  destruct (Bool.eqb old _); [reflexivity|].
  simpl. unfold notifier.Notify. rewrite map_map. reflexivity.
Qed.

(** The store's answer is not looked at. *)
Lemma performCheck_withStore (w : go.World) (e : Engine) (m : MonitorConfig)
    (st1 st2 : Store) :
  snd (performCheck w (withStore e (Some st1)) m)
  = snd (performCheck w (withStore e (Some st2)) m)
  /\ lastState (fst (performCheck w (withStore e (Some st1)) m))
     = lastState (fst (performCheck w (withStore e (Some st2)) m)).
Proof. rewrite !performCheck_unfold. split; reflexivity. Qed.

(** C7.  With the Service of package notifier as Notifier, the trace of a
    check cycle is: the probe; the CheckResult handed to the store, if there
    is a store, whatever the transition; the locked read and write of the
    recorded status; and, only when a status was recorded and differs, the
    call of Notify, which starts one goroutine per sender and runs no Send
    itself.  Neither the store's answer nor what becomes of the posts
    changes the trace or the recorded status. *)
Theorem C7_side_effects_in_order
    (w : go.World) (e : Engine) (m : MonitorConfig) (s : notifier.Service) :
  Notifier_ e = Some (ServiceNotifier s) ->
  let new := Status (cycleResult w m) in
  snd (performCheck w e m) =
    (snd (probe w m)
     ++ (match Store_ e with
         | Some _ => [EvLogCheck (cycleResult w m)]
         | None => []
         end)
     ++ [EvLock; EvUnlock]
     ++ (match lastState e !! Name m with
         | Some old =>
             if Bool.eqb old new then []
             else notifyTrace s w (Name m) new old
         | None => []
         end))%list
  /\ forallb isNetwork (snd (probe w m)) = true
  /\ (forall st1 st2,
        snd (performCheck w (withStore e (Some st1)) m)
        = snd (performCheck w (withStore e (Some st2)) m)
        /\ lastState (fst (performCheck w (withStore e (Some st1)) m))
           = lastState (fst (performCheck w (withStore e (Some st2)) m)))
  /\ lastState (fst (performCheck w e m)) = <[Name m := new]> (lastState e)
  /\ (forall post, performCheck (withPost w post) e m = performCheck w e m).
Proof.
  intros Hn new.
  split; [|split; [apply probe_network|split; [apply performCheck_withStore|
           split; [apply performCheck_lastState|]]]].
  - rewrite performCheck_unfold. simpl.
    rewrite (alertTrace_Service w e m s Hn). reflexivity.
  - intros post. rewrite !performCheck_unfold.
    rewrite !(alertTrace_Service _ e m s Hn). reflexivity.
Qed.

Lemma C7_side_effects_in_order_witness :
  let e1 := fst (performCheck (answering 200)
                   (withStore sampleEngine (Some failingStore)) svc) in
  Notifier_ e1 = Some (ServiceNotifier slack)
  /\ snd (performCheck (answering 503) e1 svc) =
     [EvRequest (10 * go.Second) "GET" "http://x/health";
      EvBodyClose;
      EvLogCheck (cycleResult (answering 503) svc);
      EvLock;
      EvUnlock;
      EvNotify "svc" false true;
      EvGo (notifier.GoSend (notifier.SlackSender "https://hooks.example/T0")
              (notifier.message (answering 503) "svc" false))].
Proof.
  intros e1. split; [reflexivity|].
  pose proof (C7_side_effects_in_order (answering 503) e1 svc slack eq_refl)
    as [H _].
  rewrite H. reflexivity.
Defined.

(** The posts of the goroutines fail, the store fails: the cycle is the
    one of a world where both succeed. *)
Example failures_do_not_reach_the_loop :
  let e1 := fst (performCheck (answering 200) sampleEngine svc) in
  let down := withPost (answering 503) (go.http_Post offline) in
  notifier.Send down (notifier.SlackSender "https://hooks.example/T0") "x"
  = Some (go.libError "Post https://hooks.example/T0: dial tcp: no route to host")
  /\ LogCheck failingStore (cycleResult down svc)
     = Some (go.libError "database is locked")
  /\ snd (performCheck down (withStore e1 (Some failingStore)) svc)
     = snd (performCheck (answering 503) e1 svc)
  /\ lastState (fst (performCheck down (withStore e1 (Some failingStore)) svc))
     !! "svc" = Some false.
Proof. vm_compute. repeat split. Qed.

(** ** Stop and the loops *)

Section Loops.

Variable parse : string -> go.error + go.Duration.

Lemma Start_lookup (e : Engine) (i : nat) (m : MonitorConfig) :
  Monitors (Cfg e) !! i = Some m ->
  Start e !! i
  = Some {| target := m; pc := Spawned; ticker := None; tick := false |}.
Proof.
  unfold Start. generalize (Monitors (Cfg e)) as ms.
  induction i as [|i IH]; intros [|m' ms] H; simpl in *; try discriminate.
  - congruence.
  - apply IH, H.
Qed.

(** A step of goroutine [i], spelled out. *)
Lemma step_Go (s : System) (i : nat) (l : Loop) (c : Choice) :
  crashed s = false -> loops s !! i = Some l ->
  step parse (Go i c) s =
  match runMonitor parse c (engine s) l with
  | Some (e', l', t) =>
      Some {| engine := e'; loops := <[i := l']> (loops s);
              trace := (trace s ++ t)%list;
              crashed := match pc l' with Panicked => true | _ => false end |}
  | None => None
  end.
Proof.
  intros Hc Hl. unfold step. rewrite Hc, Hl. simpl.
  destruct (runMonitor parse c (engine s) l) as [[[e' l'] t]|]; reflexivity.
Qed.

(** No step of a goroutine reopens the channel. *)
Lemma runMonitor_stopCh (c : Choice) (e e' : Engine) (l l' : Loop)
    (t : list Event) :
  runMonitor parse c e l = Some (e', l', t) -> stopCh e' = stopCh e.
Proof.
  unfold runMonitor.
  destruct (pc l), c; try discriminate.
  - destruct (go.NewTicker _); intros [= <- _ _]; reflexivity.
  - rewrite performCheck_unfold. intros [= <- _ _]. reflexivity.
  - destruct (stopCh e) eqn:E; [|discriminate]. intros [= <- _ _]. exact E.
  - destruct (tick l); [|discriminate]. intros [= <- _ _]. reflexivity.
Qed.

Lemma step_stopCh (a : Action) (s s' : System) :
  step parse a s = Some s' ->
  stopCh (engine s) = true -> stopCh (engine s') = true.
Proof.
  unfold step. destruct (crashed s); [discriminate|].
  destruct a as [|i|i c].
  - intros [= <-] H. unfold Stop. rewrite H. exact H.
  - destruct (loops s !! i) as [l|]; simpl; [|discriminate].
    destruct (fire l); simpl; [|discriminate].
    intros [= <-] H. exact H.
  - destruct (loops s !! i) as [l|]; simpl; [|discriminate].
    destruct (runMonitor parse c (engine s) l) as [[[e' l'] t]|] eqn:E;
      simpl; [|discriminate].
    intros [= <-] H. simpl. rewrite (runMonitor_stopCh _ _ _ _ _ _ E). exact H.
Qed.

(** C8 (amended).  A call of Stop with the channel still open does not
    panic and only closes the channel: every goroutine stays where it is,
    also one whose probe is in flight, and the channel stays closed.  From
    then on a loop at its select can take the stop case, and then returns
    without panic and without a check; with no tick pending that is the only
    step it has.  A loop that has returned has no step left, so it produces
    no further CheckResult, and its ticker no longer fires.  A probe in
    flight completes and its cycle is processed as usual. *)
Theorem C8_stop_at_wait_point
    (s : System) (i : nat) (l : Loop) :
  crashed s = false ->
  loops s !! i = Some l ->
  (stopCh (engine s) = false ->
     step parse CallStop s = Some (Stop s)
     /\ crashed (Stop s) = false
     /\ stopCh (engine (Stop s)) = true
     /\ loops (Stop s) = loops s
     /\ trace (Stop s) = trace s
     /\ lastState (engine (Stop s)) = lastState (engine s))
  /\ (stopCh (engine s) = true ->
      (forall a s', step parse a s = Some s' -> stopCh (engine s') = true)
      /\ (pc l = Waiting ->
          step parse (Go i TakeStop) s
          = Some {| engine := engine s;
                    loops := <[i := at_ (withTicker l None) Returned]> (loops s);
                    trace := trace s;
                    crashed := false |}
          /\ (tick l = false ->
              forall c s', step parse (Go i c) s = Some s' -> c = TakeStop)))
  /\ (pc l = Returned ->
      (forall c, step parse (Go i c) s = None)
      /\ (ticker l = None -> step parse (Fire i) s = None))
  /\ (pc l = Checking ->
      forall w,
        step parse (Go i (Finish w)) s
        = Some {| engine := fst (performCheck w (engine s) (target l));
                  loops := <[i := at_ l Waiting]> (loops s);
                  trace := (trace s
                            ++ snd (performCheck w (engine s) (target l)))%list;
                  crashed := false |}).
Proof.
  intros Hc Hl. split; [|split; [|split]].
  - intros Hopen. unfold step, Stop. rewrite Hc, Hopen. simpl.
    repeat split; assumption.
  - intros Hclosed. split.
    + intros a s' Hs. exact (step_stopCh a s s' Hs Hclosed).
    + intros Hpc. split.
      * rewrite (step_Go s i l TakeStop Hc Hl).
        unfold runMonitor. rewrite Hpc, Hclosed. simpl.
        rewrite app_nil_r. reflexivity.
      * intros Htick c s'. rewrite (step_Go s i l c Hc Hl).
        unfold runMonitor. rewrite Hpc, Htick.
        destruct c; try discriminate. reflexivity.
  - intros Hpc. split.
    + intros c. rewrite (step_Go s i l c Hc Hl).
      unfold runMonitor. rewrite Hpc. destruct c; reflexivity.
    + intros Ht. unfold step, fire. rewrite Hc, Hl. simpl. rewrite Ht.
      reflexivity.
  - intros Hpc w. rewrite (step_Go s i l (Finish w) Hc Hl).
    unfold runMonitor. rewrite Hpc.
    destruct (performCheck w (engine s) (target l)) as [e' t]. reflexivity.
Qed.

(** On every state the process reaches, a goroutine that has returned
    has no ticker left to fire. *)
Lemma runMonitor_tickerStopped (c : Choice) (e e' : Engine) (l l' : Loop)
    (t : list Event) :
  tickerStopped l ->
  runMonitor parse c e l = Some (e', l', t) -> tickerStopped l'.
Proof.
  unfold runMonitor, tickerStopped.
  destruct (pc l) eqn:Hpc, c; try discriminate; intros Hl.
  - destruct (go.NewTicker _); intros [= _ <- _]; simpl; auto.
  - destruct (performCheck w e (target l)). intros [= _ <- _]. exact I.
  - destruct (stopCh e); [|discriminate]. intros [= _ <- _]. reflexivity.
  - destruct (tick l); [|discriminate]. intros [= _ <- _]. exact I.
Qed.

Lemma step_tickerStopped (a : Action) (s s' : System) :
  Forall tickerStopped (loops s) ->
  step parse a s = Some s' -> Forall tickerStopped (loops s').
Proof.
  intros Hinv. unfold step. destruct (crashed s); [discriminate|].
  destruct a as [|i|i c].
  - intros [= <-]. unfold Stop. destruct (stopCh (engine s)); exact Hinv.
  - destruct (loops s !! i) as [l|] eqn:Hl; simpl; [|discriminate].
    unfold fire. destruct (ticker l) eqn:Ht; simpl; [|discriminate].
    intros [= <-]. simpl. apply Forall_insert; [exact Hinv|].
    pose proof (Forall_lookup_1 _ _ _ _ Hinv Hl) as H.
    unfold tickerStopped in *. simpl. exact H.
  - destruct (loops s !! i) as [l|] eqn:Hl; simpl; [|discriminate].
    destruct (runMonitor parse c (engine s) l) as [[[e' l'] t]|] eqn:E;
      simpl; [|discriminate].
    intros [= <-]. simpl. apply Forall_insert; [exact Hinv|].
    eapply runMonitor_tickerStopped; [|exact E].
    exact (Forall_lookup_1 _ _ _ _ Hinv Hl).
Qed.

Lemma reachable_tickerStopped (e : Engine) (acts : list Action) (s : System) :
  run parse acts (started e) = Some s -> Forall tickerStopped (loops s).
Proof.
  assert (H0 : Forall tickerStopped (loops (started e))).
  { unfold started, Start; simpl.
    induction (Monitors (Cfg e)); constructor; auto. reflexivity. }
  revert H0. generalize (started e) as s0. revert s.
  induction acts as [|a acts IH]; intros s s0 H0; simpl.
  - intros [= <-]. exact H0.
  - destruct (step parse a s0) as [s1|] eqn:E; [|discriminate].
    apply IH. exact (step_tickerStopped a s0 s1 H0 E).
Qed.

(** C10.  ParseDuration returns what time.ParseDuration parsed, whatever
    its sign, and 60 seconds only for a string that does not parse or that
    parses to 60 seconds; a loop whose interval string parses to zero or
    less panics in time.NewTicker before any check, and the panic takes the
    process down. *)
Theorem C10_nonpositive_interval_passes
    (e : Engine) (i : nat) (m : MonitorConfig) (v : go.Duration) :
  Monitors (Cfg e) !! i = Some m ->
  parse (intervalString e m) = inr v ->
  v <= 0 ->
  (forall d v', parse d = inr v' -> ParseDuration parse d = v')
  /\ (forall d, ParseDuration parse d = 60 * go.Second ->
      (exists err, parse d = inl err) \/ parse d = inr (60 * go.Second))
  /\ interval parse e m = v
  /\ go.NewTicker (interval parse e m) = None
  /\ exists s',
      step parse (Go i Begin) (started e) = Some s'
      /\ crashed s' = true
      /\ trace s' = []
      /\ forall a, step parse a s' = None.
Proof.
  intros Hm Hp Hv.
  assert (Hi : interval parse e m = v)
    by (rewrite interval_intervalString; apply ParseDuration_ok, Hp).
  assert (Hn : go.NewTicker (interval parse e m) = None).
  { rewrite Hi. unfold go.NewTicker.
    destruct (Z.leb_spec v 0); [reflexivity|lia]. }
  split; [exact (ParseDuration_ok parse)|].
  split; [|split; [exact Hi|split; [exact Hn|]]].
  - intros d Hd. unfold ParseDuration in Hd.
    destruct (parse d) as [err|v']; [left; eauto | right; f_equal; exact Hd].
  - rewrite (step_Go (started e) i _ Begin eq_refl (Start_lookup e i m Hm)).
    unfold runMonitor. simpl. rewrite Hn.
    eexists. split; [reflexivity|]. simpl.
    split; [reflexivity|]. split; [reflexivity|].
    intros a. reflexivity.
Qed.

End Loops.

Lemma C10_nonpositive_interval_passes_witness :
  Monitors (Cfg (engineWithInterval "-5s")) !! 0%nat = Some svc
  /\ sampleParse (intervalString (engineWithInterval "-5s") svc)
     = inr (-5000000000)
  /\ -5000000000 <= 0
  /\ ParseDuration sampleParse "-5s" = -5000000000
  /\ ParseDuration sampleParse "0s" = 0
  /\ go.NewTicker (interval sampleParse (engineWithInterval "-5s") svc) = None.
Proof.
  split; [reflexivity|]. split; [reflexivity|]. split; [lia|].
  pose proof (C10_nonpositive_interval_passes sampleParse
                (engineWithInterval "-5s") 0 svc (-5000000000)
                eq_refl eq_refl ltac:(lia)) as (H0 & _ & _ & H2 & _).
  split; [exact (H0 "-5s" _ eq_refl)|].
  split; [exact (H0 "0s" _ eq_refl)|exact H2].
Defined.

Lemma C8_stop_at_wait_point_witness :
  crashed stoppedAtSelect = false
  /\ loops stoppedAtSelect !! 0%nat
     = Some {| target := svc; pc := Waiting;
               ticker := Some 60000000000; tick := false |}
  /\ step sampleParse (Go 0 TakeStop) stoppedAtSelect
     = Some {| engine := engine stoppedAtSelect;
               loops := [{| target := svc; pc := Returned;
                            ticker := None; tick := false |}];
               trace := [];
               crashed := false |}.
Proof.
  split; [reflexivity|]. split; [reflexivity|].
  pose proof (C8_stop_at_wait_point sampleParse stoppedAtSelect 0
                {| target := svc; pc := Waiting;
                   ticker := Some 60000000000; tick := false |}
                eq_refl eq_refl) as (_ & H & _).
  destruct (H eq_refl) as [_ H'].
  destruct (H' eq_refl) as [H'' _].
  exact H''.
Defined.

(** The interval is 5 seconds and the endpoint does not answer, so a
    check takes 10 seconds and a tick arrives meanwhile.  Stop is called
    during the first check.  The check completes; at the select both cases
    are ready; the select takes the tick, and the loop runs a second check,
    whose result is stored after Stop. *)
Lemma C8_counterexample :
  interval sampleParse (engineWithInterval "5s") svc = 5000000000
  /\ Latency (cycleResult offline svc) = 10000000000
  /\ match run sampleParse
            [Go 0 Begin; Fire 0; CallStop; Go 0 (Finish offline)]
            (started (engineWithInterval "5s")) with
     | Some s =>
         stopCh (engine s) = true
         /\ crashed s = false
         /\ map pc (loops s) = [Waiting]
         /\ map tick (loops s) = [true]
         /\ length (logged (trace s)) = 1%nat
         /\ match run sampleParse [Go 0 TakeTick; Go 0 (Finish offline)] s with
            | Some s' =>
                map pc (loops s') = [Waiting]
                /\ length (logged (trace s')) = 2%nat
            | None => False
            end
     | None => False
     end.
Proof. vm_compute. repeat split. Qed.

(** * Beyond the claims *)

(** ** LoadConfig *)

Lemma monitorDefaults_idempotent (m : MonitorConfig) :
  monitorDefaults (monitorDefaults m) = monitorDefaults m.
Proof.
  unfold monitorDefaults; simpl. f_equal.
  - unfold inferType at 1; simpl.
    destruct (String.eqb_spec (inferType m) "") as [H|H]; [|reflexivity].
    apply inferType_unset in H as (_ & Hu & Hh).
    rewrite Hu, Hh. simpl. reflexivity.
  - destruct (String.eqb_spec (Method m) "") as [H|H]; [reflexivity|].
    destruct (String.eqb_spec (Method m) ""); [contradiction|reflexivity].
  - destruct (Z.eqb_spec (ExpectStatus m) 0) as [H|H]; [reflexivity|].
    destruct (Z.eqb_spec (ExpectStatus m) 0); [contradiction|reflexivity].
Qed.

Lemma globalDefaults_idempotent (g : GlobalConfig) :
  globalDefaults (globalDefaults g) = globalDefaults g.
Proof.
  unfold globalDefaults; simpl. f_equal.
  - destruct (String.eqb_spec (CheckInterval g) "") as [H|H]; [reflexivity|].
    destruct (String.eqb_spec (CheckInterval g) ""); [contradiction|reflexivity].
  - destruct (Z.eqb_spec (HistoryDays g) 0) as [H|H]; [reflexivity|].
    destruct (Z.eqb_spec (HistoryDays g) 0); [contradiction|reflexivity].
Qed.

Lemma validate_idempotent (cfg : Config) :
  validate (validate cfg) = validate cfg.
Proof.
  unfold validate; simpl. f_equal.
  - apply globalDefaults_idempotent.
  - rewrite map_map. apply map_ext. apply monitorDefaults_idempotent.
Qed.

Lemma LoadConfig_ok
    (os_ReadFile : string -> go.error + string)
    (yaml_Unmarshal : string -> go.error + Config)
    (path : string) (cfg : Config) :
  LoadConfig os_ReadFile yaml_Unmarshal path = inr cfg ->
  exists data raw,
    os_ReadFile path = inr data /\ yaml_Unmarshal data = inr raw
    /\ cfg = validate raw.
Proof.
  unfold LoadConfig.
  destruct (os_ReadFile path) as [err|data]; [discriminate|].
  destruct (yaml_Unmarshal data) as [err|raw] eqn:E; [discriminate|].
  intros [= <-]. exists data, raw. auto.
Qed.

(** X1.  What LoadConfig returns needs no further defaults: putting the
    defaults in once more changes nothing, so a loaded configuration that is
    written out and loaded again is read back as it was. *)
Theorem X1_loaded_config_is_stable
    (os_ReadFile : string -> go.error + string)
    (yaml_Unmarshal : string -> go.error + Config)
    (path : string) (cfg : Config) :
  LoadConfig os_ReadFile yaml_Unmarshal path = inr cfg ->
  validate cfg = cfg
  /\ forall os_ReadFile' yaml_Unmarshal' path' data',
      os_ReadFile' path' = inr data' ->
      yaml_Unmarshal' data' = inr cfg ->
      LoadConfig os_ReadFile' yaml_Unmarshal' path' = inr cfg.
Proof.
  intros H. apply LoadConfig_ok in H as (data & raw & _ & _ & ->).
  split; [apply validate_idempotent|].
  intros rf um path' data' Hr Hu. unfold LoadConfig.
  rewrite Hr, Hu, validate_idempotent. reflexivity.
Qed.

Lemma X1_loaded_config_is_stable_witness :
  LoadConfig (oneFile "monitors.yaml" "") (decodesTo rawConfig) "monitors.yaml"
  = inr (validate rawConfig)
  /\ validate (validate rawConfig) = validate rawConfig.
Proof.
  split; [reflexivity|].
  exact (proj1 (X1_loaded_config_is_stable
                  (oneFile "monitors.yaml" "") (decodesTo rawConfig)
                  "monitors.yaml" (validate rawConfig) eq_refl)).
Defined.

(** X2.  In a configuration LoadConfig returns, the global interval string
    is not empty, the history is not zero days, and every monitor has a
    method and a non-zero expected status; a monitor is left without a type
    only if it has neither URL nor host.  Nothing else is checked: the
    monitors are those of the file, in number and by name. *)
Theorem X2_loaded_config_has_defaults
    (os_ReadFile : string -> go.error + string)
    (yaml_Unmarshal : string -> go.error + Config)
    (path : string) (cfg : Config) :
  LoadConfig os_ReadFile yaml_Unmarshal path = inr cfg ->
  CheckInterval (Global cfg) <> ""
  /\ HistoryDays (Global cfg) <> 0
  /\ Forall (fun m => Method m <> "" /\ ExpectStatus m <> 0
                      /\ (Type_ m = "" -> URL m = "" /\ Host m = ""))
       (Monitors cfg)
  /\ exists data raw,
      os_ReadFile path = inr data /\ yaml_Unmarshal data = inr raw
      /\ map Name (Monitors cfg) = map Name (Monitors raw)
      /\ Notifications cfg = Notifications raw.
Proof.
  intros H. apply LoadConfig_ok in H as (data & raw & Hr & Hu & ->).
  split; [|split; [|split]].
  - simpl. destruct (String.eqb_spec (CheckInterval (Global raw)) "");
      [discriminate|assumption].
  - simpl. destruct (Z.eqb_spec (HistoryDays (Global raw)) 0);
      [discriminate|assumption].
  - simpl. apply Forall_forall. intros m Hin.
    apply list_elem_of_In, in_map_iff in Hin as (m0 & <- & _). simpl.
    split; [|split].
    + destruct (String.eqb_spec (Method m0) ""); [discriminate|assumption].
    + destruct (Z.eqb_spec (ExpectStatus m0) 0); [discriminate|assumption].
    + intros Ht. apply inferType_unset in Ht. tauto.
  - exists data, raw. simpl. rewrite map_map. auto.
Qed.

Lemma X2_loaded_config_has_defaults_witness :
  LoadConfig (oneFile "monitors.yaml" "") (decodesTo rawConfig) "monitors.yaml"
  = inr (validate rawConfig)
  /\ CheckInterval (Global (validate rawConfig)) <> ""
  /\ HistoryDays (Global (validate rawConfig)) <> 0.
Proof.
  split; [reflexivity|].
  pose proof (X2_loaded_config_has_defaults
                (oneFile "monitors.yaml" "") (decodesTo rawConfig)
                "monitors.yaml" (validate rawConfig) eq_refl)
    as (H1 & H2 & _).
  split; assumption.
Defined.

(** X3.  For a monitor whose type the file leaves unset, the type LoadConfig
    infers selects the probe: the HTTP probe when there is a URL, otherwise
    the TCP probe when there are a host and a non-zero port, otherwise the
    ICMP probe when there is a host, and otherwise no probe at all but the
    error "unknown monitor type". *)
Theorem X3_inferred_type_selects_probe (w : go.World) (m0 : MonitorConfig) :
  Type_ m0 = "" ->
  let m := monitorDefaults m0 in
  probe w m =
  if negb (URL m0 =? "") then checkHTTP w m
  else if negb (Host m0 =? "") && negb (Port m0 =? 0)%Z then checkTCP w m
  else if negb (Host m0 =? "") then checkICMP m
  else ret unknownType.
Proof.
  intros Ht m. unfold probe. subst m. simpl.
  unfold inferType. rewrite Ht. simpl.
  destruct (URL m0 =? "") eqn:Hu; simpl; [|reflexivity].
  destruct (Host m0 =? ""), (Port m0 =? 0)%Z; simpl;
    rewrite ?Hu; reflexivity.
Qed.

Lemma X3_inferred_type_selects_probe_witness :
  Type_ (bare "db" "" "db.example" 5432) = ""
  /\ probe offline (monitorDefaults (bare "db" "" "db.example" 5432))
     = checkTCP offline (monitorDefaults (bare "db" "" "db.example" 5432)).
Proof.
  split; [reflexivity|].
  exact (X3_inferred_type_selects_probe offline
           (bare "db" "" "db.example" 5432) eq_refl).
Defined.

(** ** The notifier *)

Lemma NewService_app (a b : list NotificationConfig) :
  notifier.Senders (notifier.NewService (a ++ b))
  = (notifier.Senders (notifier.NewService a)
     ++ notifier.Senders (notifier.NewService b))%list.
Proof. unfold notifier.NewService; simpl. apply flat_map_app. Qed.

(** X4.  NewService keeps, in the order of the configuration, one Telegram
    sender for every telegram entry that has both token and chat id and one
    Slack sender for every slack entry that has a webhook URL; entries of
    another type and entries with a field missing are dropped without an
    error, so there are never more senders than entries. *)
Theorem X4_NewService_senders (cfg : list NotificationConfig) :
  (forall token chatID,
      In (notifier.TelegramSender token chatID)
         (notifier.Senders (notifier.NewService cfg)) <->
      exists n, In n cfg /\ Type_n n = "telegram"
                /\ Token n = token /\ ChatID n = chatID
                /\ token <> "" /\ chatID <> "")
  /\ (forall url,
      In (notifier.SlackSender url)
         (notifier.Senders (notifier.NewService cfg)) <->
      exists n, In n cfg /\ Type_n n = "slack"
                /\ WebhookURL n = url /\ url <> "")
  /\ (length (notifier.Senders (notifier.NewService cfg)) <= length cfg)%nat
  /\ (forall a b, cfg = (a ++ b)%list ->
      notifier.Senders (notifier.NewService cfg)
      = (notifier.Senders (notifier.NewService a)
         ++ notifier.Senders (notifier.NewService b))%list).
Proof.
  split; [|split; [|split]].
  - intros token chatID. unfold notifier.NewService; simpl.
    rewrite in_flat_map. split.
    + intros (n & Hin & H). exists n. split; [exact Hin|].
      destruct (String.eqb_spec (Type_n n) "telegram") as [Ht|Ht].
      * destruct (String.eqb_spec (Token n) "") as [H1|H1];
          destruct (String.eqb_spec (ChatID n) "") as [H2|H2];
          simpl in H; try contradiction.
        destruct H as [H|[]]. inversion H; subst. auto.
      * destruct (Type_n n =? "slack"); [|contradiction].
        destruct (WebhookURL n =? ""); simpl in H; [contradiction|].
        destruct H as [H|[]]. discriminate.
    + intros (n & Hin & Ht & <- & <- & H1 & H2). exists n. split; [exact Hin|].
      rewrite Ht. simpl.
      destruct (String.eqb_spec (Token n) ""); [contradiction|].
      destruct (String.eqb_spec (ChatID n) ""); [contradiction|].
      left; reflexivity.
  - intros url. unfold notifier.NewService; simpl.
    rewrite in_flat_map. split.
    + intros (n & Hin & H). exists n. split; [exact Hin|].
      destruct (String.eqb_spec (Type_n n) "telegram") as [Ht|Ht].
      * destruct (Token n =? ""), (ChatID n =? ""); simpl in H;
          try contradiction.
        destruct H as [H|[]]. discriminate.
      * destruct (String.eqb_spec (Type_n n) "slack") as [Hs|Hs];
          [|contradiction].
        destruct (String.eqb_spec (WebhookURL n) "") as [H1|H1];
          simpl in H; [contradiction|].
        destruct H as [H|[]]. inversion H; subst. auto.
    + intros (n & Hin & Ht & <- & H1). exists n. split; [exact Hin|].
      rewrite Ht. simpl.
      destruct (String.eqb_spec (WebhookURL n) ""); [contradiction|].
      left; reflexivity.
  - unfold notifier.NewService; simpl.
    induction cfg as [|n cfg IH]; simpl; [lia|].
    rewrite length_app. case_ifs; simpl; lia.
  - intros a b ->. apply NewService_app.
Qed.

Lemma X4_NewService_senders_witness :
  notifier.Senders (notifier.NewService (Notifications rawConfig))
  = [notifier.TelegramSender "t0" "42";
     notifier.SlackSender "https://hooks.example/T0"]
  /\ In (notifier.SlackSender "https://hooks.example/T0")
       (notifier.Senders (notifier.NewService (Notifications rawConfig))).
Proof.
  split; [reflexivity|].
  apply (proj1 (proj2 (X4_NewService_senders (Notifications rawConfig)))).
  eexists. split; [right; right; left; reflexivity|].
  repeat split. discriminate.
Defined.

Lemma postJSON_outcome (w : go.World) (url : string) (v : gmap string string) :
  notifier.postJSON w url v =
  match go.http_Post w url "application/json" v with
  | inl err => Some err
  | inr resp =>
      if (go.StatusCode resp <? 300)%Z then None
      else Some (go.errorString
                   ("api request failed with status: "
                    ++ go.fmt_d (go.StatusCode resp)))
  end.
Proof.
  unfold notifier.postJSON.
  destruct (go.http_Post w url _ v) as [err|resp]; [reflexivity|].
  destruct (Z.leb_spec 300 (go.StatusCode resp)),
    (Z.ltb_spec (go.StatusCode resp) 300); try reflexivity; lia.
Qed.

(** X5.  Send posts one JSON object to the sender's endpoint: for Telegram
    the URL made from the token, with the three keys chat_id, text and
    parse_mode; for Slack the webhook URL, with the key text alone.  It
    answers nil exactly when the post got a response with a status below
    300; a status of 300 or more gives the error "api request failed with
    status: N", and an error of the post is returned as it is. *)
Theorem X5_Send_outcome (w : go.World) (s : notifier.Sender) (msg : string) :
  exists url body,
    match s with
    | notifier.TelegramSender token chatID =>
        url = "https://api.telegram.org/bot" ++ token ++ "/sendMessage"
        /\ body !! "chat_id" = Some chatID
        /\ body !! "parse_mode" = Some "Markdown"
        /\ size body = 3%nat
    | notifier.SlackSender webhookURL =>
        url = webhookURL /\ size body = 1%nat
    end
    /\ body !! "text" = Some msg
    /\ (notifier.Send w s msg = None <->
        exists resp, go.http_Post w url "application/json" body = inr resp
                     /\ go.StatusCode resp < 300)
    /\ (forall resp, go.http_Post w url "application/json" body = inr resp ->
        300 <= go.StatusCode resp ->
        notifier.Send w s msg =
        Some (go.errorString ("api request failed with status: "
                              ++ go.fmt_d (go.StatusCode resp))))
    /\ (forall err, go.http_Post w url "application/json" body = inl err ->
        notifier.Send w s msg = Some err).
Proof.
  assert (Hpost : forall url body,
    (notifier.postJSON w url body = None <->
        exists resp, go.http_Post w url "application/json" body = inr resp
                     /\ go.StatusCode resp < 300)
    /\ (forall resp, go.http_Post w url "application/json" body = inr resp ->
        300 <= go.StatusCode resp ->
        notifier.postJSON w url body =
        Some (go.errorString ("api request failed with status: "
                              ++ go.fmt_d (go.StatusCode resp))))
    /\ (forall err, go.http_Post w url "application/json" body = inl err ->
        notifier.postJSON w url body = Some err)).
  { intros url body. rewrite postJSON_outcome.
    destruct (go.http_Post w url _ body) as [err|resp].
    - split; [|split].
      + split; [discriminate|]. intros (r & H & _). discriminate.
      + intros r H. discriminate.
      + intros e [= <-]. reflexivity.
    - destruct (Z.ltb_spec (go.StatusCode resp) 300).
      + split; [|split].
        * split; [eauto|reflexivity].
        * intros r [= <-] Hr. lia.
        * intros e H'. discriminate.
      + split; [|split].
        * split; [discriminate|]. intros (r & [= <-] & Hr). lia.
        * intros r [= <-] _. reflexivity.
        * intros e H'. discriminate. }
  destruct s as [token chatID|webhookURL]; simpl.
  - eexists _, _. split; [split; [reflexivity|]|split; [|apply Hpost]].
    + split; [reflexivity|]. split; [reflexivity|].
      rewrite !map_size_insert_None; [reflexivity|..];
        rewrite ?lookup_insert_ne by discriminate; apply lookup_empty.
    + rewrite lookup_insert_ne by discriminate. apply lookup_insert_eq.
  - eexists _, _. split; [split; [reflexivity|]|split; [|apply Hpost]].
    + rewrite map_size_insert_None by apply lookup_empty. reflexivity.
    + apply lookup_insert_eq.
Qed.

Lemma X5_Send_outcome_witness :
  notifier.Send (withPost offline (fun _ _ _ => inr {| go.StatusCode := 301 |}))
    (notifier.SlackSender "https://hooks.example/T0") "x"
  = Some (go.errorString "api request failed with status: 301").
Proof.
  destruct (X5_Send_outcome
              (withPost offline (fun _ _ _ => inr {| go.StatusCode := 301 |}))
              (notifier.SlackSender "https://hooks.example/T0") "x")
    as (url & body & _ & _ & _ & H & _).
  apply (H {| go.StatusCode := 301 |}); [reflexivity|simpl; lia].
Defined.

Lemma HasPrefix_append_both (a s p : string) :
  go.HasPrefix (a ++ s) (a ++ p) = go.HasPrefix s p.
Proof.
  induction a as [|c a IH]; simpl; [reflexivity|].
  rewrite Ascii.eqb_refl. exact IH.
Qed.

Lemma HasPrefix_append (p rest : string) : go.HasPrefix (p ++ rest) p = true.
Proof.
  induction p as [|c p IH]; simpl; [destruct rest; reflexivity|].
  rewrite Ascii.eqb_refl. exact IH.
Qed.

Lemma Contains_HasPrefix (s sub : string) :
  go.HasPrefix s sub = true -> go.Contains s sub = true.
Proof. intros H. destruct s; cbn [go.Contains]; rewrite H; reflexivity. Qed.

Lemma Contains_append (pre s sub : string) :
  go.Contains s sub = true -> go.Contains (pre ++ s) sub = true.
Proof.
  intros H. induction pre as [|c pre IH]; [exact H|].
  change (String c pre ++ s) with (String c (pre ++ s)).
  cbn [go.Contains]. rewrite IH. apply orb_true_r.
Qed.

(** X6.  Notify starts one goroutine per sender, in the order of the
    senders, and all of them send the same text.  The text is made of the
    name, the new status and the time: the prior status is not used, and the
    text for up differs from the text for down. *)
Theorem X6_Notify_text
    (s : notifier.Service) (w : go.World) (name : string) (isUp wasUp : bool) :
  length (notifier.Notify s w name isUp wasUp) = length (notifier.Senders s)
  /\ (forall i snd, notifier.Senders s !! i = Some snd ->
      notifier.Notify s w name isUp wasUp !! i
      = Some (notifier.GoSend snd (notifier.message w name isUp)))
  /\ notifier.Notify s w name isUp wasUp
     = notifier.Notify s w name isUp (negb wasUp)
  /\ notifier.message w name true <> notifier.message w name false
  /\ go.Contains (notifier.message w name isUp)
       ("Monitor *" ++ name ++ "* is " ++ (if isUp then "UP" else "DOWN"))
     = true.
Proof.
  split; [|split; [|split; [|split]]].
  - unfold notifier.Notify. apply length_map.
  - intros i snd H. unfold notifier.Notify.
    change (map ?f ?l) with (f <$> l). rewrite list_lookup_fmap, H. reflexivity.
  - reflexivity.
  - unfold notifier.message. simpl. discriminate.
  - unfold notifier.message.
    apply (Contains_append (if isUp then "🟢" else "🔴")).
    apply (Contains_append " "), Contains_HasPrefix.
    change (go.HasPrefix
              ("Monitor *" ++ name ++ "* is " ++ (if isUp then "UP" else "DOWN")
               ++ " at " ++ go.now_RFC1123 w)
              ("Monitor *" ++ name ++ "* is " ++ (if isUp then "UP" else "DOWN"))
            = true).
    rewrite !HasPrefix_append_both. apply HasPrefix_append.
Qed.

Lemma X6_Notify_text_witness :
  notifier.Senders slack !! 0%nat
  = Some (notifier.SlackSender "https://hooks.example/T0")
  /\ notifier.Notify slack offline "svc" false true
     = [notifier.GoSend (notifier.SlackSender "https://hooks.example/T0")
          (notifier.message offline "svc" false)].
Proof.
  split; [reflexivity|].
  pose proof (X6_Notify_text slack offline "svc" false true) as (Hl & Hi & _).
  pose proof (Hi 0%nat _ eq_refl) as H0.
  destruct (notifier.Notify slack offline "svc" false true) as [|g [|g' gs]];
    try discriminate.
  inversion H0. reflexivity.
Defined.

(** ** The engine *)

(** X7.  The TCP probe dials "host:port", the port in decimal, once, with
    a timeout of 10 seconds; it succeeds exactly when the dial returns no
    error, closes the connection only then, and otherwise returns the error
    of the dial as it is. *)
Theorem X7_tcp_probe (w : go.World) (m : MonitorConfig) :
  let target := Host m ++ ":" ++ go.fmt_d (Port m) in
  let answer := go.net_DialTimeout w "tcp" target (10 * go.Second) in
  (fst (fst (checkTCP w m)) = true <-> answer = None)
  /\ (forall err, answer = Some err -> fst (checkTCP w m) = (false, Some err))
  /\ snd (checkTCP w m) =
     EvDial "tcp" target (10 * go.Second)
     :: (if fst (fst (checkTCP w m)) then [EvConnClose] else []).
Proof.
  intros target answer. unfold checkTCP. fold target. fold answer.
  destruct answer as [err|]; simpl.
  - split; [split; discriminate|]. split; [|reflexivity].
    intros e [= <-]. reflexivity.
  - split; [split; reflexivity|]. split; [discriminate|reflexivity].
Qed.

Lemma X7_tcp_probe_witness :
  checkTCP offline (monitorDefaults (bare "db" "" "db.example" 5432))
  = (false, Some (go.libError "dial tcp db.example:5432: i/o timeout"),
     [EvDial "tcp" "db.example:5432" 10000000000]).
Proof.
  pose proof (X7_tcp_probe offline
                (monitorDefaults (bare "db" "" "db.example" 5432)))
    as (_ & H & Ht).
  specialize (H _ eq_refl).
  destruct (checkTCP offline _) as [r t]. simpl in *. subst r t. reflexivity.
Defined.

(** X8.  A check cycle changes nothing of the engine but the status
    recorded under the monitor's name: configuration, store, notifier and
    stop channel stay, and so does the status of every other name.  The
    record is kept by name alone, so two monitors with the same name share
    it: a cycle of one is compared with the last cycle of the other. *)
Theorem X8_cycle_touches_one_record
    (w1 w2 : go.World) (e : Engine) (m m' : MonitorConfig) :
  let e1 := fst (performCheck w1 e m) in
  Cfg e1 = Cfg e /\ Store_ e1 = Store_ e /\ Notifier_ e1 = Notifier_ e
  /\ stopCh e1 = stopCh e
  /\ (forall name, name <> Name m -> lastState e1 !! name = lastState e !! name)
  /\ dom (lastState e1) = {[Name m]} ∪ dom (lastState e)
  /\ (Name m' = Name m -> forall n, Notifier_ e = Some n ->
      notifications (snd (performCheck w2 e1 m')) =
      if Bool.eqb (Status (cycleResult w1 m)) (Status (cycleResult w2 m'))
      then []
      else [(Name m', Status (cycleResult w2 m'), Status (cycleResult w1 m))]).
Proof.
  intros e1. subst e1. rewrite performCheck_unfold. simpl.
  repeat (split; [reflexivity|]).
  split; [|split].
  - intros name H. apply lookup_insert_ne. congruence.
  - apply dom_insert_L.
  - intros Hname n Hn. rewrite performCheck_notifications. simpl.
    rewrite Hname, lookup_insert_eq, Hn. reflexivity.
Qed.

Lemma X8_cycle_touches_one_record_witness :
  Name (withMethod svc "HEAD") = Name svc
  /\ Notifier_ sampleEngine = Some (ServiceNotifier slack)
  /\ notifications
       (snd (performCheck (answering 503)
               (fst (performCheck (answering 200) sampleEngine svc))
               (withMethod svc "HEAD")))
     = [("svc", false, true)].
Proof.
  split; [reflexivity|]. split; [reflexivity|].
  pose proof (X8_cycle_touches_one_record (answering 200) (answering 503)
                sampleEngine svc (withMethod svc "HEAD"))
    as (_ & _ & _ & _ & _ & _ & H).
  exact (H eq_refl _ eq_refl).
Defined.

(** ** Runs of the process *)

Lemma goroutines_app (t1 t2 : list Event) :
  goroutines (t1 ++ t2) = (goroutines t1 ++ goroutines t2)%list.
Proof.
  induction t1 as [|ev t1 IH]; [reflexivity|].
  destruct ev; simpl; rewrite ?IH; reflexivity.
Qed.

Lemma goroutines_network (t : list Event) :
  forallb isNetwork t = true -> goroutines t = [].
Proof.
  induction t as [|ev t IH]; [reflexivity|].
  destruct ev; simpl; intros H; try discriminate; auto.
Qed.

Lemma goroutines_go (gs : list notifier.Goroutine) :
  goroutines (map EvGo gs) = gs.
Proof. induction gs as [|g gs IH]; simpl; rewrite ?IH; reflexivity. Qed.




Section Runs.

Variable parse : string -> go.error + go.Duration.

(** A step of runMonitor either leaves engine and trace alone or is the
    end of a check. *)
Lemma runMonitor_effect (c : Choice) (e e' : Engine) (l l' : Loop)
    (t : list Event) :
  runMonitor parse c e l = Some (e', l', t) ->
  target l' = target l
  /\ ((e' = e /\ t = [])
      \/ exists w, c = Finish w /\ performCheck w e (target l) = (e', t)).
Proof.
  unfold runMonitor.
  destruct (pc l), c; try discriminate.
  - destruct (go.NewTicker _); intros [= <- <- <-]; auto.
  - destruct (performCheck w e (target l)) as [e1 t1] eqn:E.
    intros [= <- <- <-]. split; [reflexivity|]. right. eauto.
  - destruct (stopCh e); [|discriminate]. intros [= <- <- <-]; auto.
  - destruct (tick l); [|discriminate]. intros [= <- <- <-]; auto.
Qed.

(** What a step of the process does to engine and trace. *)
Lemma step_effect (a : Action) (s s' : System) :
  step parse a s = Some s' ->
  (lastState (engine s') = lastState (engine s)
   /\ Cfg (engine s') = Cfg (engine s)
   /\ Store_ (engine s') = Store_ (engine s)
   /\ Notifier_ (engine s') = Notifier_ (engine s)
   /\ trace s' = trace s
   /\ Forall2 (fun l l' => target l' = target l) (loops s) (loops s'))
  \/ exists i l w,
      loops s !! i = Some l
      /\ engine s' = fst (performCheck w (engine s) (target l))
      /\ trace s' = (trace s ++ snd (performCheck w (engine s) (target l)))%list
      /\ Forall2 (fun l l' => target l' = target l) (loops s) (loops s').
Proof.
  assert (Hrefl : forall ls : list Loop,
            Forall2 (fun l l' => target l' = target l) ls ls).
  { intros ls. apply Forall_Forall2_diag, Forall_forall. reflexivity. }
  assert (Hins : forall (ls : list Loop) i l l',
            ls !! i = Some l -> target l' = target l ->
            Forall2 (fun l l' => target l' = target l) ls (<[i := l']> ls)).
  { intros ls i l l' Hl Ht.
    rewrite <- (list_insert_id ls i l Hl) at 1.
    apply Forall2_insert; [apply Hrefl|exact Ht]. }
  unfold step. destruct (crashed s); [discriminate|].
  destruct a as [|i|i c].
  - intros [= <-]. left. unfold Stop.
    destruct (stopCh (engine s)); simpl; repeat split; auto.
  - destruct (loops s !! i) as [l|] eqn:Hl; simpl; [|discriminate].
    unfold fire. destruct (ticker l); simpl; [|discriminate].
    intros [= <-]. left. simpl. repeat split; auto.
    eapply Hins; [exact Hl|reflexivity].
  - destruct (loops s !! i) as [l|] eqn:Hl; simpl; [|discriminate].
    destruct (runMonitor parse c (engine s) l) as [[[e' l'] t]|] eqn:E;
      simpl; [|discriminate].
    intros [= <-]. simpl.
    apply runMonitor_effect in E as [Ht [[-> ->]|(w & -> & E)]].
    + left. rewrite app_nil_r. repeat split; auto.
      eapply Hins; eauto.
    + right. exists i, l, w. rewrite E. simpl. repeat split; auto.
      eapply Hins; eauto.
Qed.

(** An invariant of the steps holds on every state a run reaches. *)
Lemma run_invariant (P : System -> Prop) :
  (forall a s s', P s -> step parse a s = Some s' -> P s') ->
  forall acts s s', P s -> run parse acts s = Some s' -> P s'.
Proof.
  intros Hstep acts. induction acts as [|a acts IH]; intros s s' Hs; simpl.
  - intros [= <-]. exact Hs.
  - destruct (step parse a s) as [s1|] eqn:E; [|discriminate].
    apply IH. exact (Hstep a s s1 Hs E).
Qed.

Lemma performCheck_frame (w : go.World) (e : Engine) (m : MonitorConfig) :
  Cfg (fst (performCheck w e m)) = Cfg e
  /\ Store_ (fst (performCheck w e m)) = Store_ e
  /\ Notifier_ (fst (performCheck w e m)) = Notifier_ e
  /\ stopCh (fst (performCheck w e m)) = stopCh e.
Proof. rewrite performCheck_unfold. repeat split. Qed.




End Runs.


Section Reachable.

Variable parse : string -> go.error + go.Duration.

Lemma Forall2_target_map (ls ls' : list Loop) :
  Forall2 (fun l l' => target l' = target l) ls ls' ->
  map target ls' = map target ls.
Proof. induction 1; simpl; congruence. Qed.

Lemma lookup_target (ls : list Loop) (i : nat) (l : Loop) :
  ls !! i = Some l -> In (target l) (map target ls).
Proof.
  intros H. apply in_map, list_elem_of_In.
  eapply list_elem_of_lookup_2, H.
Qed.

(** X10.  In every run of a process started with a fresh engine, every
    CheckResult handed to the store, every call of Notify and every
    recorded status carries the name of a configured monitor, and every
    call of Notify reports a new status that is the opposite of the prior
    one; the loops stay those of the configured monitors, one each. *)
Theorem X10_only_configured_names
    (cfg : Config) (store : option Store) (n : option Notifier)
    (acts : list Action) (s : System) :
  run parse acts (started (NewEngine cfg store n)) = Some s ->
  let names := map Name (Monitors cfg) in
  Forall (fun r => In (MonitorName r) names) (logged (trace s))
  /\ Forall (fun c => In (fst (fst c)) names /\ snd (fst c) = negb (snd c))
       (notifications (trace s))
  /\ (forall name, is_Some (lastState (engine s) !! name) -> In name names)
  /\ map target (loops s) = Monitors cfg.
Proof.
  intros Hrun names.
  pose (P := fun s : System =>
    map target (loops s) = Monitors cfg
    /\ Forall (fun r => In (MonitorName r) names) (logged (trace s))
    /\ Forall (fun c => In (fst (fst c)) names /\ snd (fst c) = negb (snd c))
         (notifications (trace s))
    /\ (forall name, is_Some (lastState (engine s) !! name) -> In name names)).
  assert (HP : P s).
  { eapply (run_invariant parse P); [| |exact Hrun].
    - clear Hrun s acts. intros a s s' (Hm & Hl & Hn & Hd) Hstep.
      apply step_effect in Hstep
        as [(Hls & _ & _ & _ & Ht & Hf)|(i & l & w & Hi & He & Ht & Hf)].
      + unfold P. rewrite Ht, Hls, (Forall2_target_map _ _ Hf). auto.
      + assert (Hin : In (Name (target l)) names).
        { unfold names. rewrite <- Hm, map_map.
          apply (in_map (fun x => Name (target x))), list_elem_of_In.
          eapply list_elem_of_lookup_2, Hi. }
        unfold P. rewrite Ht, He, (Forall2_target_map _ _ Hf).
        rewrite logged_app, notifications_app, performCheck_logged,
          performCheck_notifications, performCheck_lastState.
        split; [exact Hm|]. split; [|split].
        * apply Forall_app. split; [exact Hl|].
          destruct (Store_ (engine s)); constructor; [exact Hin|constructor].
        * apply Forall_app. split; [exact Hn|].
          generalize (Status (cycleResult w (target l))) as new. intros new.
          destruct (lastState (engine s) !! Name (target l)) as [old|],
            (Notifier_ (engine s)); try constructor.
          destruct (Bool.eqb old new) eqn:E; constructor; [|constructor].
          split; [exact Hin|].
          destruct old, new; simpl in E; try discriminate; reflexivity.
        * intros name. destruct (String.eqb_spec (Name (target l)) name) as [<-|E].
          -- intros _. exact Hin.
          -- rewrite lookup_insert_ne by exact E. apply Hd.
    - unfold P, started, Start. simpl. rewrite map_map. simpl.
      rewrite map_id. split; [reflexivity|].
      split; [constructor|]. split; [constructor|].
      intros name. rewrite lookup_empty. intros [x Hx]. discriminate. }
  destruct HP as (H1 & H2 & H3 & H4). auto.
Qed.

Lemma run_stopCh (acts : list Action) (s s' : System) :
  stopCh (engine s) = true -> run parse acts s = Some s' ->
  stopCh (engine s') = true.
Proof.
  apply (run_invariant parse (fun s => stopCh (engine s) = true)).
  intros a s1 s2 H Hs. exact (step_stopCh parse a s1 s2 Hs H).
Qed.

(** X11.  Stop is good for one call.  Once it has been called, the channel
    stays closed whatever the process does next, and a further call of Stop
    at any later time panics in close: the process is down and no loop runs
    any further. *)
Theorem X11_second_Stop_panics
    (s s2 : System) (acts : list Action) :
  stopCh (engine s) = false ->
  run parse (CallStop :: acts) s = Some s2 ->
  crashed s2 = false ->
  stopCh (engine s2) = true
  /\ exists s3,
      step parse CallStop s2 = Some s3
      /\ crashed s3 = true
      /\ forall a, step parse a s3 = None.
Proof.
  intros Hopen Hrun Hc2. simpl in Hrun.
  destruct (step parse CallStop s) as [s1|] eqn:E; [|discriminate].
  assert (H1 : stopCh (engine s1) = true).
  { unfold step in E. destruct (crashed s); [discriminate|].
    injection E as <-. unfold Stop. rewrite Hopen. reflexivity. }
  pose proof (run_stopCh acts s1 s2 H1 Hrun) as H2.
  split; [exact H2|].
  unfold step at 1. rewrite Hc2. unfold Stop. rewrite H2.
  eexists. split; [reflexivity|]. split; [reflexivity|].
  intros a. reflexivity.
Qed.

(** X12.  A goroutine that has not yet run when Stop is called still makes
    its first check: runMonitor creates the ticker and calls performCheck
    before it looks at the stop channel, so the result of that check is
    stored and recorded after Stop, and only then the loop is at its
    select. *)
Theorem X12_first_check_runs_after_Stop
    (e : Engine) (i : nat) (m : MonitorConfig) (w : go.World)
    (d : go.Duration) :
  stopCh e = false ->
  Monitors (Cfg e) !! i = Some m ->
  go.NewTicker (interval parse e m) = Some d ->
  exists s,
    run parse [CallStop; Go i Begin; Go i (Finish w)] (started e) = Some s
    /\ crashed s = false
    /\ stopCh (engine s) = true
    /\ trace s = snd (performCheck w e m)
    /\ lastState (engine s) !! Name m = Some (Status (cycleResult w m))
    /\ loops s !! i
       = Some {| target := m; pc := Waiting; ticker := Some d; tick := false |}.
Proof.
  intros Hopen Hm Hd.
  pose proof (Start_lookup e i m Hm) as Hl.
  assert (Hlen : (i < length (Start e))%nat) by (eapply lookup_lt_Some, Hl).
  pose (e1 := {| Cfg := Cfg e; Store_ := Store_ e; Notifier_ := Notifier_ e;
                 lastState := lastState e; stopCh := true |}).
  pose (s1 := {| engine := e1; loops := Start e; trace := [];
                 crashed := false |}).
  assert (H1 : step parse CallStop (started e) = Some s1).
  { unfold step, Stop, started. simpl. rewrite Hopen. reflexivity. }
  pose (l1 := {| target := m; pc := Checking; ticker := Some d;
                 tick := false |}).
  pose (s2 := {| engine := e1; loops := <[i := l1]> (Start e); trace := [];
                 crashed := false |}).
  assert (H2 : step parse (Go i Begin) s1 = Some s2).
  { rewrite (step_Go parse s1 i _ Begin eq_refl Hl).
    unfold runMonitor. simpl.
    change (interval parse e1 m) with (interval parse e m). rewrite Hd.
    reflexivity. }
  assert (Hl2 : loops s2 !! i = Some l1)
    by (apply list_lookup_insert_eq; exact Hlen).
  cbn [run]. rewrite H1, H2.
  rewrite (step_Go parse s2 i l1 (Finish w) eq_refl Hl2).
  unfold runMonitor. simpl.
  rewrite (performCheck_unfold w e1 m).
  eexists. split; [reflexivity|]. simpl.
  split; [reflexivity|]. split; [reflexivity|].
  split; [rewrite performCheck_unfold; reflexivity|].
  split; [apply lookup_insert_eq|].
  rewrite list_insert_insert_eq. apply list_lookup_insert_eq. exact Hlen.
Qed.

End Reachable.

Lemma X10_only_configured_names_witness :
  match run sampleParse [Go 0 Begin; Go 0 (Finish (answering 200))]
          (started sampleEngine) with
  | Some s =>
      Forall (fun r => In (MonitorName r) ["svc"]) (logged (trace s))
      /\ map target (loops s) = [svc]
  | None => False
  end.
Proof.
  destruct (run sampleParse _ (started sampleEngine)) as [s|] eqn:E;
    [|vm_compute in E; discriminate].
  pose proof (X10_only_configured_names sampleParse
                (sampleConfig "60s" [svc]) (Some okStore)
                (Some (ServiceNotifier slack)) _ s E) as (H1 & _ & _ & H4).
  split; [exact H1|exact H4].
Defined.

Lemma X11_second_Stop_panics_witness :
  let s2 := {| engine := setLastState (engine stoppedAtSelect) ∅;
               loops := [{| target := svc; pc := Checking;
                            ticker := Some 60000000000; tick := false |}];
               trace := [];
               crashed := false |} in
  stopCh (engine (started sampleEngine)) = false
  /\ run sampleParse [CallStop; Go 0 Begin] (started sampleEngine) = Some s2
  /\ exists s3, step sampleParse CallStop s2 = Some s3 /\ crashed s3 = true.
Proof.
  intros s2. split; [reflexivity|]. split; [reflexivity|].
  destruct (X11_second_Stop_panics sampleParse (started sampleEngine) s2
              [Go 0 Begin] eq_refl eq_refl eq_refl)
    as (_ & s3 & H & Hc & _).
  exists s3. split; assumption.
Defined.

Lemma X12_first_check_runs_after_Stop_witness :
  stopCh sampleEngine = false
  /\ Monitors (Cfg sampleEngine) !! 0%nat = Some svc
  /\ go.NewTicker (interval sampleParse sampleEngine svc) = Some 60000000000
  /\ exists s,
      run sampleParse [CallStop; Go 0 Begin; Go 0 (Finish offline)]
        (started sampleEngine) = Some s
      /\ stopCh (engine s) = true
      /\ lastState (engine s) !! "svc" = Some false.
Proof.
  split; [reflexivity|]. split; [reflexivity|]. split; [reflexivity|].
  destruct (X12_first_check_runs_after_Stop sampleParse sampleEngine 0 svc
              offline 60000000000 eq_refl eq_refl eq_refl)
    as (s & Hr & _ & Hs & _ & Hl & _).
  exists s. split; [exact Hr|]. split; [exact Hs|exact Hl].
Defined.

(** ** The store *)

Lemma wrapInt64_small (z : Z) :
  -9223372036854775808 <= z < 9223372036854775808 -> store.wrapInt64 z = z.
Proof.
  intros H. unfold store.wrapInt64. rewrite Z.mod_small; lia.
Qed.

Lemma quot_ms_bounds (a : Z) :
  -9223372036854775808 <= a < 9223372036854775808 ->
  -9223372036854775808 <= Z.quot a 1000000 * 1000000 < 9223372036854775808
  /\ Z.abs (a - Z.quot a 1000000 * 1000000) < 1000000
  /\ a - Z.quot a 1000000 * 1000000 = Z.rem a 1000000.
Proof.
  intros H. pose proof (Z.quot_rem' a 1000000).
  destruct (Z_lt_le_dec a 0).
  - pose proof (Z.rem_bound_pos_neg a 1000000 ltac:(lia) ltac:(lia)). lia.
  - pose proof (Z.rem_bound_pos a 1000000 ltac:(lia) ltac:(lia)). lia.
Qed.

(** X13.  What LogCheck writes GetHistory reads back: the row made of the
    arguments of the insert, scanned under the result's monitor name, is
    the CheckResult again, but for the latency, which comes back cut to
    whole milliseconds (towards zero, so less than a millisecond is lost,
    and nothing when the latency is a whole number of milliseconds). *)
Theorem X13_row_round_trip (r : CheckResult) :
  -9223372036854775808 <= Latency r < 9223372036854775808 ->
  exists row,
    storedRow (store.insertArgs r) = Some row
    /\ let r' := store.fromRow (MonitorName r) row in
       MonitorName r' = MonitorName r
       /\ Timestamp r' = Timestamp r
       /\ Status r' = Status r
       /\ Error r' = Error r
       /\ Latency r' = Z.quot (Latency r) 1000000 * 1000000
       /\ Z.abs (Latency r - Latency r') < 1000000
       /\ (Z.rem (Latency r) 1000000 = 0 <-> r' = r).
Proof.
  intros H. destruct (quot_ms_bounds _ H) as (Hb & Ha & Hr).
  eexists. split; [reflexivity|]. simpl.
  assert (HL : store.wrapInt64
                 (store.Milliseconds (Latency r) * store.Millisecond)
               = Z.quot (Latency r) 1000000 * 1000000)
    by (apply wrapInt64_small, Hb).
  assert (HS : ((if Status r then 1 else 0) =? 1)%Z = Status r)
    by (destruct (Status r); reflexivity).
  split; [reflexivity|]. split; [reflexivity|]. split; [exact HS|].
  split; [reflexivity|]. split; [exact HL|]. split; [rewrite HL; exact Ha|].
  unfold store.fromRow. simpl. rewrite HL, HS. split.
  - intros H0. destruct r as [n t s l e]. simpl in *. f_equal. lia.
  - intros E. apply (f_equal Latency) in E. simpl in E. lia.
Qed.

Lemma X13_row_round_trip_witness :
  -9223372036854775808 <= Latency (cycleResult (answering 200) svc)
    < 9223372036854775808
  /\ store.fromRow "svc"
       {| store.ts := 1700000000; store.statusInt := 1;
          store.latMs := 12; store.errorMsg := "" |}
     = cycleResult (answering 200) svc.
Proof.
  assert (H : -9223372036854775808 <= Latency (cycleResult (answering 200) svc)
              < 9223372036854775808) by (simpl; lia).
  split; [exact H|].
  destruct (X13_row_round_trip (cycleResult (answering 200) svc) H)
    as (row & Hrow & _ & _ & _ & _ & _ & _ & Heq).
  injection Hrow as <-.
  apply Heq. reflexivity.
Defined.

Lemma index_middle {A : Type} (l1 l2 : list A) (x : A) :
  store.index (l1 ++ x :: l2) (Z.of_nat (length l1)) = Some x.
Proof.
  unfold store.index.
  destruct (Z.ltb_spec (Z.of_nat (length l1)) 0); [lia|].
  rewrite Nat2Z.id. apply list_lookup_middle. reflexivity.
Qed.

Lemma insert_middle {A : Type} (l1 l2 : list A) (x y : A) :
  <[length l1 := y]> (l1 ++ x :: l2)%list = (l1 ++ y :: l2)%list.
Proof.
  rewrite insert_app_r_alt by lia. rewrite Nat.sub_diag. reflexivity.
Qed.

(** A list of length two or more has a first and a last element. *)
Lemma both_ends {A : Type} (l : list A) :
  (2 <= length l)%nat -> exists a mid b, l = (a :: mid ++ [b])%list.
Proof.
  destruct l as [|a l]; simpl; [lia|]. intros H.
  destruct (exists_last (l := l)) as (mid & b & ->).
  - destruct l; simpl in *; [lia|discriminate].
  - eauto.
Qed.

(** The loop reverses the part of the list between its two indices. *)
Lemma reverseLoop_middle {A : Type} (fuel : nat) :
  forall (pre l suf : list A),
    (length l < 2 * fuel)%nat ->
    store.reverseLoop fuel (Z.of_nat (length pre))
      (Z.of_nat (length pre + length l) - 1) (pre ++ l ++ suf)%list
    = Some (pre ++ rev l ++ suf)%list.
Proof.
  induction fuel as [|fuel IH]; intros pre l suf Hlen; [lia|].
  cbn [store.reverseLoop].
  destruct (le_lt_dec 2 (length l)) as [H2|H2].
  - destruct (both_ends l H2) as (a & mid & b & ->).
    rewrite length_cons, length_app in *. simpl in Hlen. simpl length.
    destruct (Z.ltb_spec (Z.of_nat (length pre))
                (Z.of_nat (length pre + S (length mid + 1)) - 1)); [|lia].
    change (pre ++ (a :: mid ++ [b]) ++ suf)%list
      with (pre ++ a :: ((mid ++ [b]) ++ suf))%list.
    rewrite index_middle.
    assert (Hj : Z.of_nat (length pre + S (length mid + 1)) - 1
                 = Z.of_nat (length (pre ++ a :: mid)%list)).
    { rewrite length_app. simpl. lia. }
    rewrite Hj.
    assert (Hsplit : (pre ++ a :: (mid ++ [b]) ++ suf
                      = (pre ++ a :: mid) ++ b :: suf)%list).
    { rewrite <- !app_assoc. reflexivity. }
    rewrite Hsplit at 1. rewrite index_middle.
    rewrite !Nat2Z.id.
    rewrite insert_middle.
    assert (Hsplit' : (pre ++ b :: (mid ++ [b]) ++ suf
                       = (pre ++ b :: mid) ++ b :: suf)%list).
    { rewrite <- !app_assoc. reflexivity. }
    rewrite Hsplit'.
    replace (length (pre ++ a :: mid)%list) with (length (pre ++ b :: mid)%list)
      by (rewrite !length_app; reflexivity).
    rewrite insert_middle.
    replace (Z.of_nat (length pre) + 1) with (Z.of_nat (length (pre ++ [b])%list))
      by (rewrite length_app; simpl; lia).
    replace (Z.of_nat (length (pre ++ b :: mid)%list) - 1)
      with (Z.of_nat (length (pre ++ [b])%list + length mid) - 1)
      by (rewrite !length_app; simpl; lia).
    replace ((pre ++ b :: mid) ++ a :: suf)%list
      with ((pre ++ [b]) ++ mid ++ a :: suf)%list
      by (rewrite <- !app_assoc; reflexivity).
    rewrite IH by lia. f_equal.
    simpl. rewrite rev_app_distr. simpl.
    rewrite <- !app_assoc. reflexivity.
  - destruct (Z.ltb_spec (Z.of_nat (length pre))
                (Z.of_nat (length pre + length l) - 1)); [lia|].
    destruct l as [|a [|b l]]; simpl in H2; try lia; reflexivity.
Qed.

Lemma reverseInPlace_rev {A : Type} (results : list A) :
  store.reverseInPlace results = Some (rev results).
Proof.
  unfold store.reverseInPlace.
  pose proof (reverseLoop_middle (S (length results)) [] results []) as H.
  simpl length in H. rewrite !app_nil_r in H. simpl app in H.
  rewrite Nat.add_0_l in H. apply H. lia.
Qed.

(** X14.  The loop that swaps the two ends of the history towards the
    middle reverses it: for every list it ends without an index out of
    range, its result is the list in reverse order, and running it on the
    result gives the list back. *)
Theorem X14_in_place_reversal {A : Type} (results : list A) :
  store.reverseInPlace results = Some (rev results)
  /\ (store.reverseInPlace results ≫= store.reverseInPlace) = Some results
  /\ forall results', store.reverseInPlace results = Some results' ->
       length results' = length results
       /\ forall x, In x results' <-> In x results.
Proof.
  rewrite reverseInPlace_rev. split; [reflexivity|]. split.
  - simpl. rewrite reverseInPlace_rev, rev_involutive. reflexivity.
  - intros results' [= <-]. split; [apply length_rev|].
    intros x. symmetry. apply in_rev.
Qed.

Lemma scanRows_spec (name : string) (rows : list (go.error + store.Scanned)) :
  forall acc,
    store.scanRows name rows acc =
    match firstScanError rows with
    | Some err => inl err
    | None => inr (acc ++ map (store.fromRow name) (scannedRows rows))%list
    end.
Proof.
  induction rows as [|[err|row] rows IH]; intros acc; simpl.
  - rewrite app_nil_r. reflexivity.
  - reflexivity.
  - rewrite IH. destruct (firstScanError rows); [reflexivity|].
    rewrite <- app_assoc. reflexivity.
Qed.

Lemma firstScanError_None_length (rows : list (go.error + store.Scanned)) :
  firstScanError rows = None -> length (scannedRows rows) = length rows.
Proof.
  induction rows as [|[err|row] rows IH]; simpl; intros H;
    [reflexivity|discriminate|]. rewrite IH by exact H. reflexivity.
Qed.

Lemma GetHistory_spec (st : store.SQLiteStore) (name : string) (limit : Z) :
  store.GetHistory st name limit =
  Some match store.db_Query (store.db st) store.selectQuery
               [store.VText name; store.VInt limit] with
       | inl err => inl err
       | inr rows =>
           match firstScanError rows with
           | Some err => inl err
           | None => inr (rev (map (store.fromRow name) (scannedRows rows)))
           end
       end.
Proof.
  unfold store.GetHistory.
  destruct (store.db_Query _ _ _) as [err|rows]; [reflexivity|].
  rewrite scanRows_spec.
  destruct (firstScanError rows); [reflexivity|].
  simpl. rewrite reverseInPlace_rev. reflexivity.
Qed.

(** X15.  GetHistory never panics.  It answers the error of the query, or
    the error of the first row that does not scan (the rows scanned before
    it are dropped), and otherwise the rows in the reverse of the order the
    database returned them, each under the monitor name that was asked for:
    as many results as rows, and the row returned first, the newest for the
    query's descending order, is the last result. *)
Theorem X15_GetHistory_order
    (st : store.SQLiteStore) (name : string) (limit : Z) :
  let answer := store.db_Query (store.db st) store.selectQuery
                  [store.VText name; store.VInt limit] in
  (forall err, answer = inl err ->
     store.GetHistory st name limit = Some (inl err))
  /\ (forall rows err, answer = inr rows -> firstScanError rows = Some err ->
     store.GetHistory st name limit = Some (inl err))
  /\ (forall rows, answer = inr rows -> firstScanError rows = None ->
     exists results,
       store.GetHistory st name limit = Some (inr results)
       /\ results = rev (map (store.fromRow name) (scannedRows rows))
       /\ length results = length rows
       /\ Forall (fun r => MonitorName r = name) results
       /\ last results = store.fromRow name <$> head (scannedRows rows)).
Proof.
  intros answer. pose proof (GetHistory_spec st name limit) as H.
  fold answer in H. split; [|split].
  - intros err Ha. rewrite H, Ha. reflexivity.
  - intros rows err Ha He. rewrite H, Ha, He. reflexivity.
  - intros rows Ha He. rewrite H, Ha, He. eexists. split; [reflexivity|].
    split; [reflexivity|]. split; [|split].
    + rewrite length_rev, length_map.
      apply firstScanError_None_length, He.
    + apply Forall_forall. intros r Hr.
      apply list_elem_of_In, in_rev, in_map_iff in Hr as (row & <- & _).
      reflexivity.
    + destruct (scannedRows rows) as [|row rest]; [reflexivity|].
      simpl. apply last_snoc.
Qed.

Lemma X15_GetHistory_order_witness :
  store.GetHistory sampleStore "svc" 90
  = Some (inr [cycleResult (answering 200) svc;
               {| MonitorName := "svc"; Timestamp := 1700000060;
                  Status := false; Latency := 10000000000;
                  Error := "timeout" |}]).
Proof.
  destruct (X15_GetHistory_order sampleStore "svc" 90) as (_ & _ & H).
  destruct (H _ eq_refl eq_refl) as (results & Hg & -> & _).
  exact Hg.
Defined.

(** ** The index page *)

Lemma gather_spec (st : store.SQLiteStore) (ms : list MonitorConfig) :
  forall views,
    web.gather st ms views = Some (views ++ flat_map (viewsOf st) ms)%list.
Proof.
  induction ms as [|m ms IH]; intros views; simpl.
  - rewrite app_nil_r. reflexivity.
  - rewrite GetHistory_spec. unfold viewsOf at 1.
    destruct (store.db_Query _ _ _) as [err|rows]; [apply IH|].
    destruct (firstScanError rows); [apply IH|].
    destruct (scannedRows rows) as [|row rest].
    + simpl. rewrite IH, <- app_assoc. reflexivity.
    + remember (rev (map (store.fromRow (Name m)) (row :: rest))) as history.
      assert (Hh : history
                   = (rev (map (store.fromRow (Name m)) rest)
                      ++ [store.fromRow (Name m) row])%list)
        by (subst history; reflexivity).
      assert (Hlen : Z.of_nat (length history) - 1
                     = Z.of_nat (length (rev (map (store.fromRow (Name m)) rest)))).
      { rewrite Hh, length_app. simpl. lia. }
      destruct (Z.ltb_spec 0 (Z.of_nat (length history)));
        [|rewrite Hh, length_app in *; simpl in *; lia].
      rewrite Hlen. rewrite Hh at 1. rewrite index_middle.
      rewrite IH, <- app_assoc. reflexivity.
Qed.

Lemma viewsOf_le (st : store.SQLiteStore) (ms : list MonitorConfig) :
  (length (flat_map (viewsOf st) ms) <= length ms)%nat.
Proof.
  induction ms as [|m ms IH]; simpl; [lia|].
  rewrite length_app. unfold viewsOf at 1.
  destruct (store.db_Query _ _ _) as [err|rows]; simpl; [lia|].
  destruct (firstScanError rows); simpl; lia.
Qed.

(** X16.  handleIndex never panics.  If the template is not set and does
    not parse, it answers the error page with code 500 and asks the store
    nothing.  Otherwise it executes the template on one view for each
    configured monitor whose history could be read, in the order of the
    configuration; a monitor whose query or whose rows fail is left out.  A
    view shows the monitor up exactly when the first row the database
    returned, the newest, has status 1, which is the status of the last
    entry of the history shown; a monitor with no row yet is shown down. *)
Theorem X16_index_page
    (tmpl : bool) (parseFiles : option go.error) (now : go.Time)
    (st : store.SQLiteStore) (cfg : Config) :
  let views := flat_map (viewsOf st) (Monitors cfg) in
  web.handleIndex tmpl parseFiles now st cfg =
    match tmpl, parseFiles with
    | false, Some err =>
        Some (web.TemplateError ("Template error: " ++ go.Error err) 500, false)
    | _, _ =>
        Some (web.Executed {| web.Now := now; web.Monitors := views |}, true)
    end
  /\ (length views <= length (Monitors cfg))%nat
  /\ Forall (fun v =>
              In (web.Name v) (map Name (Monitors cfg))
              /\ web.IsUp v = match last (web.History v) with
                              | Some r => Status r
                              | None => false
                              end)
       views.
Proof.
  intros views. split; [|split].
  - unfold web.handleIndex.
    destruct tmpl, parseFiles; try reflexivity;
      rewrite gather_spec; reflexivity.
  - apply viewsOf_le.
  - apply Forall_forall. intros v Hv.
    apply list_elem_of_In, in_flat_map in Hv as (m & Hm & Hv).
    unfold viewsOf in Hv.
    destruct (store.db_Query _ _ _) as [err|rows]; [destruct Hv|].
    destruct (firstScanError rows); [destruct Hv|].
    destruct Hv as [<-|[]]. simpl. split; [apply in_map, Hm|].
    destruct (scannedRows rows) as [|row rest]; [reflexivity|].
    simpl. rewrite last_snoc. reflexivity.
Qed.

Lemma X16_index_page_witness :
  web.handleIndex false None 1700000100 sampleStore (sampleConfig "60s" [svc])
  = Some (web.Executed
            {| web.Now := 1700000100;
               web.Monitors :=
                 [{| web.Name := "svc"; web.IsUp := false;
                     web.History :=
                       [cycleResult (answering 200) svc;
                        {| MonitorName := "svc"; Timestamp := 1700000060;
                           Status := false; Latency := 10000000000;
                           Error := "timeout" |}] |}] |},
          true).
Proof.
  exact (proj1 (X16_index_page false None 1700000100 sampleStore
                  (sampleConfig "60s" [svc]))).
Defined.

(** ** The process as main builds it *)

Lemma NewService_length (cfg : list NotificationConfig) :
  (length (notifier.Senders (notifier.NewService cfg)) <= length cfg)%nat.
Proof.
  unfold notifier.NewService; simpl.
  induction cfg as [|n cfg IH]; simpl; [lia|].
  rewrite length_app. case_ifs; simpl; lia.
Qed.

Section Main.

Variable parse : string -> go.error + go.Duration.

Lemma run_frame (acts : list Action) (s s' : System) :
  run parse acts s = Some s' ->
  Cfg (engine s') = Cfg (engine s)
  /\ Store_ (engine s') = Store_ (engine s)
  /\ Notifier_ (engine s') = Notifier_ (engine s).
Proof.
  intros H.
  apply (run_invariant parse
           (fun x => Cfg (engine x) = Cfg (engine s)
                     /\ Store_ (engine x) = Store_ (engine s)
                     /\ Notifier_ (engine x) = Notifier_ (engine s))
           ) with (acts := acts) (s := s); auto.
  clear. intros a s1 s2 (H1 & H2 & H3) Hs.
  apply step_effect in Hs
    as [(_ & Hc & Hs' & Hn & _)|(i & l & w & _ & He & _)].
  - rewrite Hc, Hs', Hn. auto.
  - rewrite He.
    destruct (performCheck_frame w (engine s1) (target l))
      as (Hc & Hs' & Hn & _).
    rewrite Hc, Hs', Hn. auto.
Qed.

(** X17.  In the process as main puts it together, the engine has the
    SQLite store and the notifier built from the configuration, and keeps
    them in every state it reaches.  So each check cycle hands its result to
    the store, and a cycle that finds the status changed starts one
    goroutine per sender NewService kept, each with the same text, at most
    one per notification entry of the configuration, and none when no entry
    is usable; a cycle that finds no change starts none. *)
Theorem X17_main_wiring
    (cfg : Config) (st : store.SQLiteStore)
    (acts : list Action) (s : System) (w : go.World) (m : MonitorConfig) :
  run parse acts (started (main.engine cfg st)) = Some s ->
  let new := Status (cycleResult w m) in
  let t := snd (performCheck w (engine s) m) in
  logged t = [cycleResult w m]
  /\ goroutines t =
     match lastState (engine s) !! Name m with
     | Some old =>
         if Bool.eqb old new then []
         else map (fun snd => notifier.GoSend snd
                                (notifier.message w (Name m) new))
                (notifier.Senders (notifier.NewService (Notifications cfg)))
     | None => []
     end
  /\ (length (goroutines t) <= length (Notifications cfg))%nat.
Proof.
  intros Hrun new t.
  apply run_frame in Hrun as (_ & Hs & Hn). simpl in Hs, Hn.
  assert (Hg : goroutines t =
     match lastState (engine s) !! Name m with
     | Some old =>
         if Bool.eqb old new then []
         else map (fun snd => notifier.GoSend snd
                                (notifier.message w (Name m) new))
                (notifier.Senders (notifier.NewService (Notifications cfg)))
     | None => []
     end).
  { subst t. rewrite performCheck_unfold. cbn [snd].
    rewrite !goroutines_app, (goroutines_network _ (probe_network w m)).
    unfold persistTrace, alertTrace. cbv zeta. rewrite Hs, Hn.
    destruct (lastState (engine s) !! Name m) as [old|]; [|reflexivity].
    change (Status (cycleResult w m)) with new.
    destruct (Bool.eqb old new); [reflexivity|].
    cbn [goroutines app]. rewrite goroutines_go. reflexivity. }
  split; [|split; [exact Hg|]].
  - subst t. rewrite performCheck_logged, Hs. reflexivity.
  - rewrite Hg.
    destruct (lastState (engine s) !! Name m) as [old|]; [|simpl; lia].
    destruct (Bool.eqb old new); [simpl; lia|].
    rewrite length_map. apply NewService_length.
Qed.

End Main.

Lemma X17_main_wiring_witness :
  match run sampleParse [Go 0 Begin; Go 0 (Finish (answering 200))]
          (started (main.engine (validate rawConfig) sampleStore)) with
  | Some s =>
      goroutines (snd (performCheck offline (engine s)
                         (monitorDefaults
                            (bare "api" "https://api.example/health" "" 0))))
      = [notifier.GoSend (notifier.TelegramSender "t0" "42")
           (notifier.message offline "api" false);
         notifier.GoSend (notifier.SlackSender "https://hooks.example/T0")
           (notifier.message offline "api" false)]
  | None => False
  end.
Proof.
  destruct (run sampleParse _ (started (main.engine _ sampleStore)))
    as [s|] eqn:E; [|vm_compute in E; discriminate].
  pose proof (X17_main_wiring sampleParse (validate rawConfig) sampleStore
                _ s offline
                (monitorDefaults (bare "api" "https://api.example/health" "" 0))
                E) as (_ & H & _).
  rewrite H. vm_compute in E. injection E as <-. reflexivity.
Defined.

(** ** Checks and ticks *)

Section Ticks.

Variable parse : string -> go.error + go.Duration.





End Ticks.

